(** * Sitemap tooling of DapsiWow: categorisation, normalisation, sitemap
      and index assembly.

    A shallow embedding of [sitemap_splitter.py] (class [SitemapSplitter])
    and [generate_sitemaps.py] (class [ToolsSitemapGenerator]).

    Conventions of the embedding.
    - A Python [str] is a [string]; its characters are the code points
      [0..255].
    - A [dict] is an association list in insertion order (the order Python
      iterates it in).
    - Code that can raise returns a [result].
    - The file system is a list of written files, oldest first. *)

From Stdlib Require Import String Ascii List Bool Arith NArith Lia.
From Stdlib Require Import Permutation Sorted.
Import ListNotations.
Open Scope string_scope.

(* ================================================================== *)
(** ** Python strings *)
(* ================================================================== *)

Module Py.

(** [str.lower] on one code point: [A-Z] and the Latin-1 capitals
    ([U+00C0..U+00DE] without the multiplication sign) move up by 32. *)
Definition lower_char (c : ascii) : ascii :=
  let n := N_of_ascii c in
  if ((65 <=? n) && (n <=? 90))%N then ascii_of_N (n + 32)
  else if ((192 <=? n) && (n <=? 222) && negb (n =? 215))%N
       then ascii_of_N (n + 32)
       else c.

(** [s.lower()] *)
Fixpoint lower (s : string) : string :=
  match s with
  | EmptyString => EmptyString
  | String c s' => String (lower_char c) (lower s')
  end.

(** [s.startswith(p)] *)
Definition startswith (p s : string) : bool := prefix p s.

(** Left-to-right scan of [s.replace(old, new)] for a non-empty [old]:
    [skip] counts the characters of a match still to be dropped. *)
Fixpoint replace_from (old new : string) (skip : nat) (s : string) : string :=
  match s with
  | EmptyString => EmptyString
  | String c s' =>
      match skip with
      | S k => replace_from old new k s'
      | O =>
          if prefix old s
          then new ++ replace_from old new (String.length old - 1) s'
          else String c (replace_from old new 0 s')
      end
  end.

(** What [replace] does for the empty [old]: [new] after every character. *)
Fixpoint intersperse_after (new s : string) : string :=
  match s with
  | EmptyString => EmptyString
  | String c s' => String c (new ++ intersperse_after new s')
  end.

(** [s.replace(old, new)]: every non-overlapping occurrence, leftmost
    first, in a single pass. *)
Definition replace (old new s : string) : string :=
  match old with
  | EmptyString => new ++ intersperse_after new s
  | _ => replace_from old new 0 s
  end.

(** [s.replace('//', '/')] read off as a recursion on the string: a pair
    of slashes gives one slash and the scan goes on behind the pair. *)
Fixpoint halve_slashes (s : string) : string :=
  match s with
  | EmptyString => EmptyString
  | String c s' =>
      match s' with
      | String d s'' =>
          if Ascii.eqb c "/" && Ascii.eqb d "/"
          then String "/" (halve_slashes s'')
          else String c (halve_slashes s')
      | EmptyString => s
      end
  end.

(** [sub in s] *)
Fixpoint contains (sub s : string) : bool :=
  prefix sub s
  || match s with
     | EmptyString => false
     | String _ s' => contains sub s'
     end.

(** [s.rstrip(c)] for a one-character argument: all trailing [c] go. *)
Fixpoint rstrip (c : ascii) (s : string) : string :=
  match s with
  | EmptyString => EmptyString
  | String a s' =>
      match rstrip c s' with
      | EmptyString => if Ascii.eqb a c then EmptyString else String a EmptyString
      | r => String a r
      end
  end.

(** [s.split(sep)[0]] for a one-character separator. *)
Fixpoint split_head (sep : ascii) (s : string) : string :=
  match s with
  | EmptyString => EmptyString
  | String a s' => if Ascii.eqb a sep then EmptyString
                   else String a (split_head sep s')
  end.

(** [s[1:]] *)
Definition drop_first (s : string) : string :=
  match s with
  | EmptyString => EmptyString
  | String _ s' => s'
  end.

(** [k in d] and [d[k]] on an insertion-ordered dict. *)
Fixpoint dict_get {V : Type} (k : string) (d : list (string * V)) : option V :=
  match d with
  | [] => None
  | (k', v) :: d' => if String.eqb k k' then Some v else dict_get k d'
  end.

Definition dict_keys {V : Type} (d : list (string * V)) : list string :=
  map fst d.

Definition dict_values {V : Type} (d : list (string * V)) : list V :=
  map snd d.

(** [d[k] = v]: an existing key keeps its place, a new one goes last. *)
Fixpoint dict_set {V : Type} (k : string) (v : V) (d : list (string * V))
  : list (string * V) :=
  match d with
  | [] => [(k, v)]
  | (k', v') :: d' =>
      if String.eqb k k' then (k, v) :: d' else (k', v') :: dict_set k v d'
  end.

(** [sorted(l, key=key)]: Python's sort is stable; a stable insertion sort
    returns the same list. *)
Section Sorted.
Context {A : Type} (key : A -> string).

Fixpoint insert_sorted (x : A) (l : list A) : list A :=
  match l with
  | [] => [x]
  | y :: l' =>
      if String.leb (key x) (key y) then x :: l
      else y :: insert_sorted x l'
  end.

Fixpoint sorted (l : list A) : list A :=
  match l with
  | [] => []
  | x :: l' => insert_sorted x (sorted l')
  end.
End Sorted.

(** The order [sorted] puts the keys in. *)
Definition key_le {A : Type} (key : A -> string) (x y : A) : Prop :=
  String.leb (key x) (key y) = true.

(** [os.path.join(a, b)] on POSIX. *)
Definition ends_with_slash (s : string) : bool :=
  match rstrip "/" s with
  | r => negb (String.eqb r s)
  end.

Definition path_join (a b : string) : string :=
  if startswith "/" b then b
  else if String.eqb a "" then b
  else if ends_with_slash a then a ++ b
  else a ++ "/" ++ b.

End Py.

(* ================================================================== *)
(** ** Regular expressions, as far as the pattern table uses them *)
(* ================================================================== *)

Module Re.

(** The patterns of the category table are built from literal characters,
    [.], a postfix [*] and [$]. *)
Inductive atom : Type :=
| AChar (c : ascii)
| AAny.

Inductive token : Type :=
| TAtom (a : atom)
| TStar (a : atom)
| TEnd.

Definition atom_of (c : ascii) : atom :=
  if Ascii.eqb c "." then AAny else AChar c.

(** [re.compile]: a character followed by [*] is starred. *)
Fixpoint compile (p : string) : list token :=
  match p with
  | EmptyString => []
  | String c p' =>
      match p' with
      | String "*" p'' => TStar (atom_of c) :: compile p''
      | _ =>
          (if Ascii.eqb c "$" then TEnd else TAtom (atom_of c)) :: compile p'
      end
  end.

Definition newline : ascii := "010"%char.

(** One character against one atom under [re.IGNORECASE]; [.] takes
    everything but a newline. *)
Definition atom_ok (a : atom) (c : ascii) : bool :=
  match a with
  | AChar p => Ascii.eqb (Py.lower_char p) (Py.lower_char c)
  | AAny => negb (Ascii.eqb c newline)
  end.

(** [$] without [re.MULTILINE]: the end of the string, or just before a
    newline that ends the string. *)
Definition at_end (s : string) : bool :=
  match s with
  | EmptyString => true
  | String c EmptyString => Ascii.eqb c newline
  | _ => false
  end.

(** Does the token list match a prefix of [s]? Backtracking over the
    stars. *)
Fixpoint match_here (p : list token) : string -> bool :=
  match p with
  | [] => fun _ => true
  | TEnd :: p' => fun s => at_end s && match_here p' s
  | TAtom a :: p' =>
      fun s =>
        match s with
        | EmptyString => false
        | String c s' => atom_ok a c && match_here p' s'
        end
  | TStar a :: p' =>
      fix star (s : string) : bool :=
        match_here p' s
        || match s with
           | EmptyString => false
           | String c s' => atom_ok a c && star s'
           end
  end.

(** Does it match at some position of [s]? The position after the last
    character counts. *)
Fixpoint search_tokens (p : list token) (s : string) : bool :=
  match_here p s
  || match s with
     | EmptyString => false
     | String _ s' => search_tokens p s'
     end.

(** [bool(re.search(pattern, s, re.IGNORECASE))] *)
Definition search (pattern s : string) : bool :=
  search_tokens (compile pattern) s.

End Re.

(* ================================================================== *)
(** ** Results of code that can raise *)
(* ================================================================== *)

Inductive exn : Type :=
| KeyError (k : string)
| AttributeError
| LookupError
| ValueError
| UnicodeDecodeError
| OSError (path : string).

Inductive result (A : Type) : Type :=
| Ok (a : A)
| Raise (e : exn).
Arguments Ok {A} a.
Arguments Raise {A} e.

Definition bind {A B : Type} (r : result A) (f : A -> result B) : result B :=
  match r with
  | Ok a => f a
  | Raise e => Raise e
  end.

Notation "x <- r ;; k" := (bind r (fun x => k))
  (at level 61, r at next level, right associativity).

(* ================================================================== *)
(** ** ElementTree documents *)
(* ================================================================== *)

(** An [ET.Element]: tag, attributes, text and children. [text] is [None]
    until assigned. *)
#[warnings="-register-all"]
Inductive Element : Type :=
| Elem (tag : string) (attrib : list (string * string))
       (text : option string) (children : list Element).

Definition tag (e : Element) : string :=
  match e with Elem t _ _ _ => t end.
Definition attrib (e : Element) : list (string * string) :=
  match e with Elem _ a _ _ => a end.
Definition text (e : Element) : option string :=
  match e with Elem _ _ x _ => x end.
Definition children (e : Element) : list Element :=
  match e with Elem _ _ _ c => c end.

(** [ET.SubElement(parent, tag)] followed by [.text = value]. *)
Definition leaf (t value : string) : Element :=
  Elem t [] (Some value) [].

Definition sitemap_ns : string := "http://www.sitemaps.org/schemas/sitemap/0.9".

(** The files a run writes, oldest first: a path written twice is there
    twice, and holds what was written last. *)
Definition files : Type := list (string * Element).

(** The file system a run meets, as far as the run asks it: whether
    [os.makedirs(d, exist_ok=True)] succeeds, and whether
    [open(path, 'wb')] and the write that follows succeed after the files
    written so far. What a run prints is left out. *)
Record file_system : Type := {
  can_makedirs : string -> bool;
  can_open : files -> string -> bool
}.

(** A run that writes files and can raise on the way: the files written
    until then stay. *)
Record run : Type := {
  files_written : files;
  exception : option exn
}.

Definition completed (fs : files) : run :=
  {| files_written := fs; exception := None |}.

Definition failed (fs : files) (e : exn) : run :=
  {| files_written := fs; exception := Some e |}.

(** The rest of a run after a step, when the step did not raise. *)
Definition and_then (r : run) (k : files -> run) : run :=
  match exception r with
  | None => k (files_written r)
  | Some _ => r
  end.

(** [with open(path, 'wb') as f: tree.write(f, ...)]: the file is
    written, or an [OSError] is raised and the file does not count as
    written. *)
Definition write_file (env : file_system) (path : string) (doc : Element)
  (fs : files) : run :=
  if can_open env fs path
  then completed (fs ++ [(path, doc)])%list
  else failed fs (OSError path).

(* ================================================================== *)
(** ** Writing a document and reading it back *)
(* ================================================================== *)

Module ET.

(** [XML 1.0] characters among the code points [0..255]: tab, line feed,
    carriage return and everything from the space on. *)
Definition xml_char_ok (c : ascii) : bool :=
  let n := N_of_ascii c in
  ((32 <=? n) || (n =? 9) || (n =? 10) || (n =? 13))%N.

Fixpoint xml_text_ok (s : string) : bool :=
  match s with
  | EmptyString => true
  | String c s' => xml_char_ok c && xml_text_ok s'
  end.

Definition cr : ascii := "013"%char.

(** End-of-line handling of an XML parser: [\r\n] and a lone [\r] are read
    as [\n]. *)
Fixpoint normalize_newlines (s : string) : string :=
  match s with
  | EmptyString => EmptyString
  | String c s' =>
      if Ascii.eqb c cr then
        match s' with
        | String d s'' =>
            if Ascii.eqb d Re.newline
            then String Re.newline (normalize_newlines s'')
            else String Re.newline (normalize_newlines s')
        | EmptyString => String Re.newline EmptyString
        end
      else String c (normalize_newlines s')
  end.

(** The text of an element after [tree.write] and [ET.parse]: the outer
    [None] is a [ParseError]. An element written with the text [''] is
    written as an empty element and read with the text [None]. *)
Definition read_text (x : option string) : option (option string) :=
  match x with
  | None => Some None
  | Some EmptyString => Some None
  | Some s => if xml_text_ok s then Some (Some (normalize_newlines s)) else None
  end.

(** A text that comes back as it was written: not empty, only XML
    characters, no carriage return. *)
Fixpoint plain_text (s : string) : bool :=
  match s with
  | EmptyString => true
  | String c s' => xml_char_ok c && negb (Ascii.eqb c cr) && plain_text s'
  end.

Definition text_preserved (s : string) : bool :=
  negb (String.eqb s "") && plain_text s.

(** A tag in Clark notation, as the parser reports it under a default
    namespace. *)
Definition qualify (ns local : string) : string :=
  match ns with
  | EmptyString => local
  | _ => "{" ++ ns ++ "}" ++ local
  end.

Fixpoint remove_key {V : Type} (k : string) (d : list (string * V))
  : list (string * V) :=
  match d with
  | [] => []
  | (k', v) :: d' =>
      if String.eqb k k' then remove_key k d' else (k', v) :: remove_key k d'
  end.

(** All the results, or [None] when one of them is [None]. *)
Fixpoint sequence {A : Type} (l : list (option A)) : option (list A) :=
  match l with
  | [] => Some []
  | x :: l' =>
      match x, sequence l' with
      | Some a, Some r => Some (a :: r)
      | _, _ => None
      end
  end.

(** The tree [ET.parse] returns for a file that [tree.write] produced from
    [e], with [ns] the default namespace in scope; [None] is a
    [ParseError]. The white space [ET.indent] puts between elements and
    the tails are not represented: nothing below reads them. *)
Fixpoint read_back (ns : string) (e : Element) : option Element :=
  match e with
  | Elem t a x cs =>
      let ns' := match Py.dict_get "xmlns" a with
                 | Some u => u
                 | None => ns
                 end in
      match read_text x, sequence (map (read_back ns') cs) with
      | Some x', Some cs' =>
          Some (Elem (qualify ns' t) (remove_key "xmlns" a) x' cs')
      | _, _ => None
      end
  end.

(** [elem.iter()]: the element and its descendants in document order. *)
Fixpoint iter (e : Element) : list Element :=
  match e with
  | Elem _ _ _ cs => e :: flat_map iter cs
  end.

(** [s.endswith(suffix)] *)
Fixpoint ends_with (suffix s : string) : bool :=
  String.eqb s suffix
  || match s with
     | EmptyString => false
     | String _ s' => ends_with suffix s'
     end.

(** Does an element tagged [el_tag] answer the path step [ns:local] under
    the prefix map [{'ns': ns}]? The step is read as [{ns}local]: with
    [ns] the star it takes [local] in any namespace or in none, with
    [ns] empty it takes the unqualified [local], otherwise the tags are
    compared. *)
Definition tag_matches (ns local el_tag : string) : bool :=
  if String.eqb ns "*"
  then String.eqb el_tag local || ends_with ("}" ++ local) el_tag
  else if String.eqb ns ""
       then String.eqb el_tag local
       else String.eqb el_tag ("{" ++ ns ++ "}" ++ local).

(** [root.findall('.//ns:local', {'ns': ns})] *)
Definition findall_descendants (ns local : string) (root : Element)
  : list Element :=
  filter (fun e => tag_matches ns local (tag e)) (tl (iter root)).

(** [elem.find('ns:local', {'ns': ns})]: the first child that answers. *)
Definition find (ns local : string) (e : Element) : option Element :=
  List.find (fun c => tag_matches ns local (tag c)) (children e).

End ET.

(* ================================================================== *)
(** ** sitemap_splitter.py *)
(* ================================================================== *)

Module SitemapSplitter.

Record category_data : Type := {
  file : string;
  patterns : list string
}.

(** A URL record [(url, lastmod, changefreq, priority)]. After parsing, a
    field is [None] where the element had no text. *)
Definition url_data : Type :=
  (option string * option string * option string * option string)%type.

Definition mk_url (url lastmod changefreq priority : string) : url_data :=
  (Some url, Some lastmod, Some changefreq, Some priority).

Definition url_of (u : url_data) : option string :=
  match u with (url, _, _, _) => url end.

(** [self.categories], in the order [__init__] writes it. *)
Definition default_categories : list (string * category_data) :=
  [ ("main",
     {| file := "sitemap-main.xml";
        patterns :=
          [ "/$"; "/about"; "/contact"; "/privacy"; "/terms"; "/help";
            "/tools$"; "/finance$"; "/health$"; "/text$"; "/pdf$" ] |});
    ("finance",
     {| file := "sitemap-finance.xml";
        patterns :=
          [ "loan.*calculator"; "mortgage.*calculator"; "emi.*calculator";
            "compound.*interest"; "simple.*interest"; "roi.*calculator";
            "tax.*calculator"; "salary.*calculator"; "tip.*calculator";
            "inflation.*calculator"; "savings.*calculator";
            "debt.*calculator"; "investment.*calculator";
            "retirement.*calculator"; "sip.*calculator"; "break.*even";
            "business.*loan"; "car.*loan"; "home.*loan"; "education.*loan";
            "credit.*card"; "percentage.*calculator"; "discount.*calculator";
            "vat.*calculator"; "gst.*calculator"; "paypal.*fee";
            "lease.*calculator"; "stock.*profit"; "net.*worth" ] |});
    ("health",
     {| file := "sitemap-health.xml";
        patterns :=
          [ "bmi.*calculator"; "bmr.*calculator"; "calorie.*calculator";
            "body.*fat"; "ideal.*weight"; "pregnancy.*calculator";
            "water.*intake"; "protein.*calculator"; "carb.*calculator";
            "keto.*calculator"; "fasting.*timer"; "step.*calorie";
            "heart.*rate"; "blood.*pressure"; "sleep.*calculator";
            "ovulation.*calculator"; "baby.*growth"; "tdee.*calculator";
            "lean.*body"; "waist.*ratio"; "whr.*calculator";
            "life.*expectancy"; "cholesterol.*calculator"; "running.*pace";
            "cycling.*speed"; "swimming.*calorie"; "alcohol.*calorie";
            "smoking.*cost" ] |});
    ("pdf",
     {| file := "sitemap-pdf.xml";
        patterns :=
          [ "merge.*pdf"; "split.*pdf"; "compress.*pdf"; "pdf.*compress";
            "pdf.*merge"; "pdf.*split"; "pdf.*convert"; "convert.*pdf";
            "pdf.*to.*image"; "image.*to.*pdf"; "pdf.*to.*word";
            "word.*to.*pdf"; "pdf.*to.*excel"; "excel.*to.*pdf";
            "pdf.*encrypt"; "encrypt.*pdf"; "pdf.*decrypt"; "decrypt.*pdf";
            "pdf.*rotate"; "rotate.*pdf"; "pdf.*watermark"; "watermark.*pdf";
            "pdf.*sign"; "sign.*pdf"; "pdf.*edit"; "edit.*pdf" ] |});
    ("text",
     {| file := "sitemap-text.xml";
        patterns :=
          [ "word.*counter"; "character.*counter"; "sentence.*counter";
            "paragraph.*counter"; "case.*converter"; "password.*generator";
            "name.*generator"; "username.*generator"; "address.*generator";
            "qr.*generator"; "font.*changer"; "reverse.*text"; "text.*to.*qr";
            "qr.*to.*text"; "text.*to.*binary"; "binary.*to.*text";
            "qr.*scanner"; "markdown.*to.*html"; "html.*to.*markdown";
            "lorem.*ipsum"; "text.*encrypt"; "text.*decrypt"; "url.*encoder";
            "url.*decoder"; "base64.*encode"; "base64.*decode" ] |}) ].

Record t : Type := {
  input_file : string;
  base_url : string;
  current_date : string;
  categories : list (string * category_data)
}.

(** [__init__]; [now] is [datetime.now().strftime("%Y-%m-%d")]. *)
Definition init (input_file base_url now : string) : t :=
  {| input_file := input_file;
     base_url := base_url;
     current_date := now;
     categories := default_categories |}.

(** The inner loop of [categorize_url]: does one of the patterns match? *)
Fixpoint any_pattern (pats : list string) (path : string) : bool :=
  match pats with
  | [] => false
  | p :: pats' => if Re.search p path then true else any_pattern pats' path
  end.

(** The outer loop of [categorize_url]: the name of the first category,
    ['main'] skipped, with a matching pattern. *)
Fixpoint scan_categories (cats : list (string * category_data))
  (path : string) : option string :=
  match cats with
  | [] => None
  | (category_name, category_data) :: cats' =>
      if String.eqb category_name "main" then scan_categories cats' path
      else if any_pattern (patterns category_data) path
           then Some category_name
           else scan_categories cats' path
  end.

(** The path [categorize_url] matches against. *)
Definition extract_path (self : t) (url : string) : string :=
  Py.lower (Py.replace (base_url self) "" url).

Definition categorize_url (self : t) (url : string) : result string :=
  let path := extract_path self url in
  match scan_categories (categories self) path with
  | Some category_name => Ok category_name
  | None =>
      match Py.dict_get "main" (categories self) with
      | None => Raise (KeyError "main")
      | Some main_data =>
          if any_pattern (patterns main_data) path then Ok "main"
          else Ok "main"
      end
  end.


(** What [os.path.exists] and [ET.parse] make of [self.input_file]: no
    file, a [ParseError], another exception ([LookupError] on an unknown
    encoding, [ValueError] on a multi-byte one, an [OSError] on a file
    that cannot be read), or the root of the document. *)
Inductive input_state : Type :=
| NotFound
| Malformed
| Unreadable (e : exn)
| Document (root : Element).

(** The input a later run finds when [doc] was written to the input
    file. *)
Definition written (doc : Element) : input_state :=
  match ET.read_back "" doc with
  | None => Malformed
  | Some root => Document root
  end.

Definition create_example_urls (self : t) : list url_data :=
  let b := base_url self in
  let d := current_date self in
  [ mk_url (b ++ "/") d "daily" "1.0";
    mk_url (b ++ "/about") d "monthly" "0.8";
    mk_url (b ++ "/contact") d "monthly" "0.8";
    mk_url (b ++ "/privacy") d "yearly" "0.5";
    mk_url (b ++ "/terms") d "yearly" "0.5";
    mk_url (b ++ "/help") d "monthly" "0.7";
    mk_url (b ++ "/tools") d "weekly" "0.9";
    mk_url (b ++ "/tools/loan-calculator") d "weekly" "0.8";
    mk_url (b ++ "/tools/mortgage-calculator") d "weekly" "0.8";
    mk_url (b ++ "/tools/emi-calculator") d "weekly" "0.8";
    mk_url (b ++ "/tools/compound-interest-calculator") d "weekly" "0.8";
    mk_url (b ++ "/tools/tax-calculator") d "weekly" "0.8";
    mk_url (b ++ "/tools/paypal-fee-calculator") d "weekly" "0.8";
    mk_url (b ++ "/tools/bmi-calculator") d "weekly" "0.8";
    mk_url (b ++ "/tools/bmr-calculator") d "weekly" "0.8";
    mk_url (b ++ "/tools/calorie-calculator") d "weekly" "0.8";
    mk_url (b ++ "/tools/body-fat-calculator") d "weekly" "0.8";
    mk_url (b ++ "/tools/word-counter") d "weekly" "0.8";
    mk_url (b ++ "/tools/character-counter") d "weekly" "0.8";
    mk_url (b ++ "/tools/case-converter") d "weekly" "0.8";
    mk_url (b ++ "/tools/password-generator") d "weekly" "0.8";
    mk_url (b ++ "/tools/merge-pdf") d "weekly" "0.8";
    mk_url (b ++ "/tools/split-pdf") d "weekly" "0.8";
    mk_url (b ++ "/tools/compress-pdf") d "weekly" "0.8" ].

(** [x.text if x is not None else default] *)
Definition text_or (x : option Element) (default : string) : option string :=
  match x with
  | Some e => text e
  | None => Some default
  end.

(** The namespace [parse_existing_sitemap] looks elements up in. *)
Definition namespace_of (root : Element) : string :=
  if Py.startswith "{" (tag root)
  then Py.drop_first (Py.split_head "}" (tag root))
  else sitemap_ns.

(** The loop body of [parse_existing_sitemap] for one [url] element. *)
Definition read_url (self : t) (ns : string) (url_elem : Element)
  : list url_data :=
  match ET.find ns "loc" url_elem with
  | Some loc =>
      [ (text loc,
         text_or (ET.find ns "lastmod" url_elem) (current_date self),
         text_or (ET.find ns "changefreq" url_elem) "weekly",
         text_or (ET.find ns "priority" url_elem) "0.8") ]
  | None => []
  end.

(** Only a [ParseError] is caught. *)
Definition parse_existing_sitemap (self : t) (input : input_state)
  : result (list url_data) :=
  match input with
  | NotFound => Ok (create_example_urls self)
  | Malformed => Ok (create_example_urls self)
  | Unreadable e => Raise e
  | Document root =>
      let ns := namespace_of root in
      Ok (flat_map (read_url self ns) (ET.findall_descendants ns "url" root))
  end.

(** One [url] element; a [None] field leaves the text unset. *)
Definition url_element (u : url_data) : Element :=
  match u with
  | (url, lastmod, changefreq, priority) =>
      Elem "url" []  None
           [ Elem "loc" [] url [];
             Elem "lastmod" [] lastmod [];
             Elem "changefreq" [] changefreq [];
             Elem "priority" [] priority [] ]
  end.

(** The document [create_sitemap_xml] writes. *)
Definition sitemap_document (urls : list url_data) : Element :=
  Elem "urlset" [("xmlns", sitemap_ns)] None (map url_element urls).

Definition create_sitemap_xml (env : file_system) (urls : list url_data)
  (filename : string) (fs : files) : run :=
  write_file env filename (sitemap_document urls) fs.

(** One [sitemap] element of an index. *)
Definition index_entry (loc lastmod : string) : Element :=
  Elem "sitemap" [] None [ leaf "loc" loc; leaf "lastmod" lastmod ].

Definition index_document (self : t) : Element :=
  Elem "sitemapindex" [("xmlns", sitemap_ns)] None
       (map (fun category_data =>
               index_entry (base_url self ++ "/" ++ file category_data)
                           (current_date self))
            (Py.dict_values (categories self))).

Definition create_sitemap_index (env : file_system) (self : t) (fs : files)
  : run :=
  write_file env "sitemap.xml" (index_document self) fs.

(** [categorized_urls[category].append(url_data)] *)
Fixpoint dict_append (k : string) (u : url_data)
  (d : list (string * list url_data)) : result (list (string * list url_data)) :=
  match d with
  | [] => Raise (KeyError k)
  | (k', l) :: d' =>
      if String.eqb k k' then Ok ((k', (l ++ [u])%list) :: d')
      else d'' <- dict_append k u d' ;; Ok ((k', l) :: d'')
  end.

(** The categorisation loop of [split_sitemap]. A record whose URL is
    [None] stops the run: [None] has no [replace]. *)
Fixpoint categorize_all (self : t) (all_urls : list url_data)
  (categorized_urls : list (string * list url_data))
  : result (list (string * list url_data)) :=
  match all_urls with
  | [] => Ok categorized_urls
  | url_data :: rest =>
      match url_of url_data with
      | None => Raise AttributeError
      | Some url =>
          category <- categorize_url self url ;;
          d <- dict_append category url_data categorized_urls ;;
          categorize_all self rest d
      end
  end.

(** The loop of [split_sitemap] that writes the category sitemaps. *)
Fixpoint write_categories (env : file_system) (self : t)
  (categorized_urls : list (string * list url_data)) (fs : files) : run :=
  match categorized_urls with
  | [] => completed fs
  | (category, urls) :: rest =>
      match urls with
      | [] => write_categories env self rest fs
      | _ =>
          match Py.dict_get category (categories self) with
          | None => failed fs (KeyError category)
          | Some category_data =>
              and_then (create_sitemap_xml env urls (file category_data) fs)
                       (write_categories env self rest)
          end
      end
  end.

(** [split_sitemap]: the files one run writes, and what it raises. The
    files go to the working directory under the configured names. *)
Definition split_sitemap (env : file_system) (self : t) (input : input_state)
  : run :=
  match parse_existing_sitemap self input with
  | Raise e => failed [] e
  | Ok [] => completed []
  | Ok all_urls =>
      let empty := map (fun category => (category, @nil url_data))
                       (Py.dict_keys (categories self)) in
      match categorize_all self all_urls empty with
      | Raise e => failed [] e
      | Ok categorized_urls =>
          and_then (write_categories env self categorized_urls [])
                   (create_sitemap_index env self)
      end
  end.

(** *** Vocabulary of the statements about [categorize_url] *)

(** Does some pattern of the entry match? *)
Definition entry_matches (path : string) (entry : string * category_data)
  : bool :=
  any_pattern (patterns (snd entry)) path.

(** An entry the main scan leaves behind: ['main'] itself, or one without
    a matching pattern. *)
Definition passed_over (path : string) (entry : string * category_data)
  : bool :=
  String.eqb (fst entry) "main" || negb (entry_matches path entry).

(** Does some pattern of the configured category [name] match? *)
Definition category_matches (name path : string) : bool :=
  match Py.dict_get name default_categories with
  | Some data => any_pattern (patterns data) path
  | None => false
  end.

(** Is the record one that [categorize_url] puts in [category]? *)
Definition in_category (self : t) (category : string) (u : url_data) : bool :=
  match url_of u with
  | Some url =>
      match categorize_url self url with
      | Ok c => String.eqb c category
      | Raise _ => false
      end
  | None => false
  end.

(** Is the record one whose four fields are texts that come back as
    written? *)
Definition field_preserved (x : option string) : bool :=
  match x with
  | Some s => ET.text_preserved s
  | None => false
  end.

Definition record_preserved (u : url_data) : bool :=
  match u with
  | (url, lastmod, changefreq, priority) =>
      field_preserved url && field_preserved lastmod
      && field_preserved changefreq && field_preserved priority
  end.

End SitemapSplitter.

(* ================================================================== *)
(** ** generate_sitemaps.py *)
(* ================================================================== *)

Module ToolsSitemapGenerator.

Record tool : Type := {
  id : string;
  name : string;
  description : string;
  category : string;
  href : string;
  url : string
}.

Record t : Type := {
  base_url : string;
  tools_file : string;
  output_dir : string;
  current_date : string
}.

(** [__init__]; [now] is [datetime.now().strftime("%Y-%m-%d")]. *)
Definition init (base_url tools_file output_dir now : string) : t :=
  {| base_url := Py.rstrip "/" base_url;
     tools_file := tools_file;
     output_dir := output_dir;
     current_date := now |}.

(** The groups [(id, name, description, category, href)] of one match of
    [tool_pattern]. *)
Definition raw_tool : Type := (string * string * string * string * string)%type.

(** What [parse_tools_from_ts] finds in [self.tools_file]: no file, a
    file that [open] or [read] raises on (an [OSError], a
    [UnicodeDecodeError]), no [toolsData] array, or the matches of
    [tool_pattern] in the array. *)
Inductive tools_source : Type :=
| ToolsNotFound
| ToolsUnreadable (e : exn)
| NoToolsData
| ToolsData (matches : list raw_tool).

(** [href.lower().replace('//', '/').rstrip('/')] *)
Definition clean_href (href : string) : string :=
  Py.rstrip "/" (Py.replace "//" "/" (Py.lower href)).

(** The two normalisation steps of [parse_tools_from_ts], in the order of
    the source: the prefix test on the raw [href] first. *)
Definition normalize_href (tool_id href : string) : string :=
  let href := if negb (Py.startswith "/tools/" href)
              then "/tools/" ++ tool_id
              else href in
  clean_href href.

Definition make_tool (self : t) (m : raw_tool) : tool :=
  match m with
  | (tool_id, name, description, category, href) =>
      let href := normalize_href tool_id href in
      {| id := tool_id;
         name := name;
         description := description;
         category := category;
         href := href;
         url := base_url self ++ href |}
  end.

Definition parse_tools_from_ts (self : t) (src : tools_source)
  : result (list tool) :=
  match src with
  | ToolsNotFound => Ok []
  | ToolsUnreadable e => Raise e
  | NoToolsData => Ok []
  | ToolsData matches => Ok (map (make_tool self) matches)
  end.

(** The first loop of [group_tools_by_category]: a new category starts
    with the empty list, then the tool is appended. *)
Fixpoint group_loop (tools : list tool)
  (categorized : list (string * list tool)) : list (string * list tool) :=
  match tools with
  | [] => categorized
  | tool :: rest =>
      let sofar := match Py.dict_get (category tool) categorized with
                   | Some l => l
                   | None => []
                   end in
      group_loop rest
        (Py.dict_set (category tool) (sofar ++ [tool])%list categorized)
  end.

Definition group_tools_by_category (tools : list tool)
  : list (string * list tool) :=
  map (fun entry => (fst entry, Py.sorted name (snd entry)))
      (group_loop tools []).

Definition tool_element (self : t) (tool : tool) : Element :=
  Elem "url" [] None
       [ leaf "loc" (url tool);
         leaf "lastmod" (current_date self);
         leaf "changefreq" "weekly";
         leaf "priority" "0.8" ].

Definition sitemap_document (self : t) (tools : list tool) : Element :=
  Elem "urlset" [("xmlns", sitemap_ns)] None (map (tool_element self) tools).

(** [os.makedirs(d, exist_ok=True)]: the empty path always raises. *)
Definition makedirs (env : file_system) (d : string) : option exn :=
  if String.eqb d "" then Some (OSError d)
  else if can_makedirs env d then None
  else Some (OSError d).

Definition create_sitemap_xml (env : file_system) (self : t)
  (tools : list tool) (filename : string) (fs : files) : run :=
  write_file env (Py.path_join (output_dir self) filename)
             (sitemap_document self tools) fs.

Definition main_pages : list (string * string * string) :=
  [ ("/", "daily", "1.0");
    ("/about-us", "monthly", "0.8");
    ("/contact-us", "monthly", "0.8");
    ("/privacy-policy", "yearly", "0.5");
    ("/terms-of-service", "yearly", "0.5");
    ("/help-center", "monthly", "0.7");
    ("/all-tools", "weekly", "0.9");
    ("/finance-tools", "weekly", "0.9");
    ("/health-tools", "weekly", "0.9");
    ("/text-tools", "weekly", "0.9") ].

Definition main_document (self : t) : Element :=
  Elem "urlset" [("xmlns", sitemap_ns)] None
       (map (fun page =>
               match page with
               | (path, changefreq, priority) =>
                   Elem "url" [] None
                        [ leaf "loc" (base_url self ++ path);
                          leaf "lastmod" (current_date self);
                          leaf "changefreq" changefreq;
                          leaf "priority" priority ]
               end)
            main_pages).

Definition create_main_sitemap (env : file_system) (self : t) (fs : files)
  : run :=
  write_file env (Py.path_join (output_dir self) "sitemap-main.xml")
             (main_document self) fs.

Definition index_entry (loc lastmod : string) : Element :=
  Elem "sitemap" [] None [ leaf "loc" loc; leaf "lastmod" lastmod ].

Definition category_entry (self : t) (category : string) : Element :=
  index_entry (base_url self ++ "/sitemap-" ++ category ++ ".xml")
              (current_date self).

Definition index_document (self : t) (categories : list string) : Element :=
  Elem "sitemapindex" [("xmlns", sitemap_ns)] None
       (index_entry (base_url self ++ "/sitemap-main.xml") (current_date self)
        :: map (category_entry self) (Py.sorted (fun c => c) categories)).

Definition create_sitemap_index (env : file_system) (self : t)
  (categories : list string) (fs : files) : run :=
  write_file env (Py.path_join (output_dir self) "sitemap.xml")
             (index_document self categories) fs.

(** The loop of [generate_sitemaps] that writes the category sitemaps. *)
Fixpoint write_categories (env : file_system) (self : t)
  (categorized_tools : list (string * list tool)) (fs : files) : run :=
  match categorized_tools with
  | [] => completed fs
  | (category, tools_in_category) :: rest =>
      match tools_in_category with
      | [] => write_categories env self rest fs
      | _ =>
          and_then
            (create_sitemap_xml env self tools_in_category
               ("sitemap-" ++ category ++ ".xml") fs)
            (write_categories env self rest)
      end
  end.

(** [generate_sitemaps]: the files one run writes, and what it raises. *)
Definition generate_sitemaps (env : file_system) (self : t)
  (src : tools_source) : run :=
  match parse_tools_from_ts self src with
  | Raise e => failed [] e
  | Ok [] => completed []
  | Ok tools =>
      let categorized_tools := group_tools_by_category tools in
      match makedirs env (output_dir self) with
      | Some e => failed [] e
      | None =>
          and_then (write_categories env self categorized_tools [])
            (fun fs =>
               and_then (create_main_sitemap env self fs)
                 (create_sitemap_index env self
                    (Py.dict_keys categorized_tools)))
      end
  end.

(** *** Vocabulary of the statements about the generator *)

(** Is the tool one of [category]? *)
Definition of_category (category' : string) (tool : tool) : bool :=
  String.eqb (category tool) category'.

(** Where the sitemap of a category is written. *)
Definition category_file (self : t) (category : string) : string :=
  Py.path_join (output_dir self) ("sitemap-" ++ category ++ ".xml").

End ToolsSitemapGenerator.

(* ================================================================== *)
(** ** The normaliser as the specification words it *)
(* ================================================================== *)

Module SpecNormalizer.






End SpecNormalizer.

(* ================================================================== *)
(** ** Example runs *)
(* ================================================================== *)

Module Examples.

Definition splitter : SitemapSplitter.t :=
  SitemapSplitter.init "sitemap.xml" "https://dapsiwow.com" "2024-01-01".

Definition generator : ToolsSitemapGenerator.t :=
  ToolsSitemapGenerator.init "https://dapsiwow.com" "client/src/data/tools.ts"
    "client/public" "2024-01-01".

(** A file system in which every directory can be made and every file
    opened. *)
Definition obliging : file_system :=
  {| can_makedirs := fun _ => true; can_open := fun _ _ => true |}.

(** A parsed [url] element that has a [loc] only. *)
Definition parsed_url (loc : string) : Element :=
  Elem (ET.qualify sitemap_ns "url") [] None
       [ Elem (ET.qualify sitemap_ns "loc") [] (Some loc) [] ].

(** A parsed sitemap with these locations. *)
Definition parsed_urlset (locs : list string) : SitemapSplitter.input_state :=
  SitemapSplitter.Document
    (Elem (ET.qualify sitemap_ns "urlset") [] None (map parsed_url locs)).

Definition home_only : SitemapSplitter.input_state :=
  parsed_urlset [ "https://dapsiwow.com/" ].

Definition loan_then_tax : SitemapSplitter.input_state :=
  parsed_urlset [ "https://dapsiwow.com/tools/loan-calculator";
                  "https://dapsiwow.com/tools/tax-calculator" ].

Definition tax_then_loan : SitemapSplitter.input_state :=
  parsed_urlset [ "https://dapsiwow.com/tools/tax-calculator";
                  "https://dapsiwow.com/tools/loan-calculator" ].

Definition empty_urlset : SitemapSplitter.input_state := parsed_urlset [].

Definition bmi : ToolsSitemapGenerator.raw_tool :=
  ("bmi-calculator", "BMI Calculator", "Body mass index", "health",
   "/tools/bmi-calculator").

Definition bmr : ToolsSitemapGenerator.raw_tool :=
  ("bmr-calculator", "BMR Calculator", "Basal metabolic rate", "health",
   "/tools/bmr-calculator").

Definition loan : ToolsSitemapGenerator.raw_tool :=
  ("loan-calculator", "Loan Calculator", "Loan payments", "finance",
   "/tools/loan-calculator").

End Examples.

(* ================================================================== *)
(** ** Vocabulary of the further statements *)
(* ================================================================== *)

Module Further.

(** Is the token list free of [$]? *)
Definition end_free (p : list Re.token) : bool :=
  forallb (fun t => match t with Re.TEnd => false | _ => true end) p.

(** Are all patterns of the entry free of [$]? *)
Definition unanchored (entry : string * SitemapSplitter.category_data)
  : bool :=
  forallb (fun p => end_free (Re.compile p))
          (SitemapSplitter.patterns (snd entry)).

(** The content of a file once the run is over: the last write counts. *)
Fixpoint last_written (name : string) (fs : files) : option Element :=
  match fs with
  | [] => None
  | (n, doc) :: fs' =>
      match last_written name fs' with
      | Some d => Some d
      | None => if String.eqb name n then Some doc else None
      end
  end.

(** The children of the documents of a list of files, file after file. *)
Definition entries (fs : files) : list Element :=
  flat_map (fun f => children (snd f)) fs.

(** A catalogue entry of the category [main]. *)
Definition main_tool : ToolsSitemapGenerator.raw_tool :=
  ("site-search", "Site Search", "Search the site", "main",
   "/tools/site-search").

(** A sitemap written without the [xmlns] attribute, as [ET.parse]
    returns it. *)
Definition plain_sitemap : SitemapSplitter.input_state :=
  SitemapSplitter.Document
    (Elem "urlset" [] None
       [ Elem "url" [] None
           [ Elem "loc" [] (Some "https://dapsiwow.com/tools/bmi-calculator")
               [] ] ]).

(** A parsed sitemap whose second [url] has an empty [loc]. *)
Definition empty_loc_sitemap : SitemapSplitter.input_state :=
  SitemapSplitter.Document
    (Elem (ET.qualify sitemap_ns "urlset") [] None
       [ Examples.parsed_url "https://dapsiwow.com/tools/bmi-calculator";
         Elem (ET.qualify sitemap_ns "url") [] None
           [ Elem (ET.qualify sitemap_ns "loc") [] None [] ] ]).

End Further.

(* ================================================================== *)
(** * Properties *)
(* ================================================================== *)

(** ** The categoriser *)

Module CategorizerProofs.
Import SitemapSplitter.

Lemma any_pattern_true pats path :
  any_pattern pats path = true <->
  exists p, In p pats /\ Re.search p path = true.
Proof.
  induction pats as [|q pats IH]; simpl.
  - split; [discriminate | intros (p & [] & _)].
  - destruct (Re.search q path) eqn:Hq.
    + split; [intros _; exists q; auto | reflexivity].
    + rewrite IH. split.
      * intros (p & Hin & Hp). exists p; auto.
      * intros (p & [Heq | Hin] & Hp); [congruence | exists p; auto].
Qed.

Lemma any_pattern_false pats path :
  any_pattern pats path = false <->
  forall p, In p pats -> Re.search p path = false.
Proof.
  split.
  - intros H p Hin. destruct (Re.search p path) eqn:Hp; [|reflexivity].
    assert (any_pattern pats path = true) by (apply any_pattern_true; eauto).
    congruence.
  - intros H. destruct (any_pattern pats path) eqn:Ha; [|reflexivity].
    apply any_pattern_true in Ha. destruct Ha as (p & Hin & Hp).
    rewrite (H p Hin) in Hp. discriminate.
Qed.

(** The outer loop stops at the first entry that is not passed over. *)
Lemma scan_categories_first before c data after path :
  forallb (passed_over path) before = true ->
  String.eqb c "main" = false ->
  any_pattern (patterns data) path = true ->
  scan_categories (before ++ (c, data) :: after) path = Some c.
Proof.
  intros Hb Hc Hm. induction before as [|[n d] before IH]; simpl.
  - rewrite Hc, Hm. reflexivity.
  - simpl in Hb. apply andb_true_iff in Hb. destruct Hb as [Hp Hb].
    unfold passed_over, entry_matches in Hp. simpl in Hp.
    destruct (String.eqb n "main"); [now apply IH|].
    simpl in Hp. apply negb_true_iff in Hp. rewrite Hp. now apply IH.
Qed.

Lemma scan_categories_Some cats path c :
  scan_categories cats path = Some c ->
  exists before data after,
    cats = (before ++ (c, data) :: after)%list
    /\ String.eqb c "main" = false
    /\ any_pattern (patterns data) path = true
    /\ forallb (passed_over path) before = true.
Proof.
  induction cats as [|[n d] cats IH]; simpl; [discriminate|].
  destruct (String.eqb n "main") eqn:Hn.
  - intros H. destruct (IH H) as (b & data & a & -> & Hc & Hm & Hb).
    exists ((n, d) :: b), data, a. repeat split; auto.
    simpl. unfold passed_over at 1. simpl. rewrite Hn. exact Hb.
  - destruct (any_pattern (patterns d) path) eqn:Hd.
    + intros [= <-]. exists [], d, cats. repeat split; auto.
    + intros H. destruct (IH H) as (b & data & a & -> & Hc & Hm & Hb).
      exists ((n, d) :: b), data, a. repeat split; auto.
      simpl. unfold passed_over at 1, entry_matches. simpl.
      rewrite Hn, Hd. exact Hb.
Qed.

Lemma scan_categories_None cats path :
  scan_categories cats path = None ->
  forallb (passed_over path) cats = true.
Proof.
  induction cats as [|[n d] cats IH]; simpl; [reflexivity|].
  unfold passed_over at 1, entry_matches. simpl.
  destruct (String.eqb n "main"); [exact IH|].
  destruct (any_pattern (patterns d) path); [discriminate|exact IH].
Qed.

(** What being passed over says about the patterns. *)
Lemma passed_over_patterns path entries :
  forallb (passed_over path) entries = true ->
  forall n d p,
    In (n, d) entries -> n <> "main" -> In p (patterns d) ->
    Re.search p path = false.
Proof.
  intros H n d p Hin Hn Hp.
  rewrite forallb_forall in H. specialize (H _ Hin).
  unfold passed_over, entry_matches in H. simpl in H.
  apply orb_true_iff in H. destruct H as [H | H].
  - apply String.eqb_eq in H. contradiction.
  - apply negb_true_iff in H.
    exact (proj1 (any_pattern_false _ _) H p Hp).
Qed.

(** With the table of [__init__] the lookup of ['main'] never fails. *)
Lemma categorize_url_scan input_file base_url now url :
  categorize_url (init input_file base_url now) url =
  Ok match scan_categories default_categories
             (extract_path (init input_file base_url now) url) with
     | Some c => c
     | None => "main"
     end.
Proof.
  unfold categorize_url. cbn [categories init].
  destruct (scan_categories default_categories _); [reflexivity|].
  change (Py.dict_get "main" default_categories)
    with (Some (snd (hd ("", {| file := ""; patterns := [] |})
                        default_categories))).
  cbv beta iota.
  destruct (any_pattern _ _); reflexivity.
Qed.

(** A match of the token list at the front of [s] is found by the search
    wherever [s] starts. *)
Lemma search_tokens_app p pre s :
  Re.match_here p s = true -> Re.search_tokens p (pre ++ s) = true.
Proof.
  intros H. induction pre as [|c pre IH]; simpl.
  - destruct s; simpl; rewrite H; reflexivity.
  - rewrite IH. apply orb_true_r.
Qed.

Lemma search_merge_pdf pre post :
  Re.search "merge.*pdf" (pre ++ "merge-pdf" ++ post) = true.
Proof.
  unfold Re.search. apply search_tokens_app. reflexivity.
Qed.

(** C1. For every URL, [categorize_url] returns a category and does not
    raise; the category is one of the configured names; it is the first
    category of the table, ['main'] left out, one of whose patterns matches
    somewhere in the extracted path, no pattern of an earlier category
    matching; and it is ['main'] exactly when no pattern of another
    category matches. *)
Theorem categorize_url_total_first_match
  (input_file base_url now url : string) :
  exists c,
    categorize_url (init input_file base_url now) url = Ok c
    /\ In c (Py.dict_keys default_categories)
    /\ (c <> "main" ->
        exists before data after,
          default_categories = (before ++ (c, data) :: after)%list
          /\ (exists p, In p (patterns data)
                /\ Re.search p
                     (extract_path (init input_file base_url now) url) = true)
          /\ forall n d p,
               In (n, d) before -> n <> "main" -> In p (patterns d) ->
               Re.search p
                 (extract_path (init input_file base_url now) url) = false)
    /\ (c = "main" <->
        forall n d p,
          In (n, d) default_categories -> n <> "main" -> In p (patterns d) ->
          Re.search p
            (extract_path (init input_file base_url now) url) = false).
Proof.
  rewrite categorize_url_scan.
  set (path := extract_path _ url).
  destruct (scan_categories default_categories path) as [c|] eqn:Hscan.
  - destruct (scan_categories_Some _ _ _ Hscan)
      as (before & data & after & Hsplit & Hc & Hm & Hb).
    apply String.eqb_neq in Hc.
    exists c. split; [reflexivity|]. split; [|split].
    + unfold Py.dict_keys. rewrite Hsplit, map_app. apply in_or_app.
      right. left. reflexivity.
    + intros _. exists before, data, after. split; [exact Hsplit|]. split.
      * apply any_pattern_true. exact Hm.
      * apply passed_over_patterns. exact Hb.
    + split; [contradiction|]. intros Hnone. exfalso.
      apply any_pattern_true in Hm. destruct Hm as (p & Hin & Hp).
      rewrite (Hnone c data p) in Hp; [discriminate| |exact Hc|exact Hin].
      rewrite Hsplit. apply in_or_app. right. left. reflexivity.
  - exists "main". split; [reflexivity|]. split; [|split].
    + left. reflexivity.
    + intros H. contradiction H. reflexivity.
    + split; [|reflexivity]. intros _.
      apply passed_over_patterns. apply scan_categories_None. exact Hscan.
Qed.

(** C2. When patterns of two categories of the table match the extracted
    path, the category declared earlier is returned, no category declared
    before it matching; a path that contains [merge-pdf] and matches no
    pattern of the categories declared before ['pdf'] is put in ['pdf'],
    and so is the example URL of the merge tool. *)
Theorem earlier_category_wins (input_file base_url now url : string) :
  (forall before a between b after,
      default_categories = (before ++ a :: between ++ b :: after)%list ->
      String.eqb (fst a) "main" = false ->
      entry_matches (extract_path (init input_file base_url now) url) a
        = true ->
      entry_matches (extract_path (init input_file base_url now) url) b
        = true ->
      forallb (passed_over (extract_path (init input_file base_url now) url))
              before = true ->
      categorize_url (init input_file base_url now) url = Ok (fst a))
  /\ (forall pre post,
         extract_path (init input_file base_url now) url
           = pre ++ "merge-pdf" ++ post ->
         category_matches "finance" (pre ++ "merge-pdf" ++ post) = false ->
         category_matches "health" (pre ++ "merge-pdf" ++ post) = false ->
         categorize_url (init input_file base_url now) url = Ok "pdf")
  /\ categorize_url (init input_file "https://dapsiwow.com" now)
       "https://dapsiwow.com/tools/merge-pdf" = Ok "pdf".
Proof.
  split; [|split].
  - intros before [na da] between b after Hsplit Hna Ha _ Hbefore.
    rewrite categorize_url_scan, Hsplit.
    rewrite (scan_categories_first before na da (between ++ b :: after));
      auto.
  - intros pre post Hpath Hfin Hhealth.
    rewrite categorize_url_scan, Hpath.
    set (path := pre ++ "merge-pdf" ++ post) in *.
    unfold category_matches in Hfin, Hhealth. simpl Py.dict_get in *.
    assert (Hpdf : Re.search "merge.*pdf" path = true)
      by apply search_merge_pdf.
    unfold default_categories.
    cbn [scan_categories String.eqb Ascii.eqb Bool.eqb patterns].
    cbn [patterns] in Hfin, Hhealth.
    rewrite Hfin, Hhealth.
    cbn [any_pattern]. rewrite Hpdf. reflexivity.
  - rewrite categorize_url_scan. vm_compute. reflexivity.
Qed.

(** An instance: the path [word-to-pdf-word-counter] matches a pattern of
    ['pdf'] and one of ['text']; ['pdf'] is declared first. *)
Lemma earlier_category_wins_witness :
  categorize_url (init "sitemap.xml" "https://dapsiwow.com" "2024-01-01")
    "https://dapsiwow.com/tools/word-to-pdf-word-counter" = Ok "pdf".
Proof.
  refine (proj1 (earlier_category_wins "sitemap.xml" "https://dapsiwow.com"
                   "2024-01-01"
                   "https://dapsiwow.com/tools/word-to-pdf-word-counter")
            (firstn 3 default_categories)
            (nth 3 default_categories ("", {| file := ""; patterns := [] |}))
            []
            (nth 4 default_categories ("", {| file := ""; patterns := [] |}))
            [] _ _ _ _ _); vm_compute; reflexivity.
Defined.

End CategorizerProofs.

(** ** The href normaliser *)

Module NormalizerProofs.
Import ToolsSitemapGenerator.

Lemma prefix_nil s : prefix "" s = true.
Proof. destruct s; reflexivity. Qed.

Lemma prefix_cons a p b s :
  prefix (String a p) (String b s) = Ascii.eqb a b && prefix p s.
Proof.
  simpl. destruct (ascii_dec a b) as [->|Hne].
  - rewrite Ascii.eqb_refl. reflexivity.
  - apply Ascii.eqb_neq in Hne. rewrite Hne. reflexivity.
Qed.


Lemma prefix_app p s t : prefix p s = true -> prefix p (s ++ t) = true.
Proof.
  revert s. induction p as [|a p IH]; intros s H; [apply prefix_nil|].
  destruct s as [|b s]; [discriminate|].
  simpl append. rewrite prefix_cons in *.
  apply andb_true_iff in H. destruct H as [-> H]. simpl. now apply IH.
Qed.

Lemma contains_app_false sub s t :
  Py.contains sub (s ++ t) = false -> Py.contains sub s = false.
Proof.
  induction s as [|c s IH]; intros H.
  - destruct sub; [|reflexivity].
    destruct t; discriminate.
  - change (String c s ++ t) with (String c (s ++ t)) in H.
    cbn [Py.contains] in *.
    apply orb_false_iff in H. destruct H as [Hp Hc].
    apply orb_false_iff. split; [|now apply IH].
    destruct (prefix sub (String c s)) eqn:E; [|reflexivity].
    apply (prefix_app _ _ t) in E.
    change (String c s ++ t) with (String c (s ++ t)) in E. congruence.
Qed.

(** *** Lower-casing *)

Lemma lower_char_idempotent c :
  Py.lower_char (Py.lower_char c) = Py.lower_char c.
Proof.
  destruct c as [[] [] [] [] [] [] [] []]; reflexivity.
Qed.

Lemma lower_char_slash c :
  Ascii.eqb (Py.lower_char c) "/" = Ascii.eqb c "/".
Proof.
  destruct c as [[] [] [] [] [] [] [] []]; reflexivity.
Qed.

Lemma lower_idempotent s : Py.lower (Py.lower s) = Py.lower s.
Proof.
  induction s as [|c s IH]; simpl; [reflexivity|].
  now rewrite lower_char_idempotent, IH.
Qed.

(** *** The single pass of [replace('//', '/')] *)

Lemma replace_from_0 old new c s :
  Py.replace_from old new 0 (String c s)
  = if prefix old (String c s)
    then new ++ Py.replace_from old new (String.length old - 1) s
    else String c (Py.replace_from old new 0 s).
Proof. reflexivity. Qed.

Lemma replace_from_S old new k c s :
  Py.replace_from old new (S k) (String c s) = Py.replace_from old new k s.
Proof. reflexivity. Qed.

Lemma halve_slashes_pair s :
  Py.halve_slashes (String "/" (String "/" s))
  = String "/" (Py.halve_slashes s).
Proof. reflexivity. Qed.

Lemma halve_slashes_other c d s :
  Ascii.eqb c "/" && Ascii.eqb d "/" = false ->
  Py.halve_slashes (String c (String d s))
  = String c (Py.halve_slashes (String d s)).
Proof. intros H. cbn [Py.halve_slashes]. rewrite H. reflexivity. Qed.

Lemma replace_from_halve s :
  Py.replace_from "//" "/" 0 s = Py.halve_slashes s
  /\ forall c, Py.replace_from "//" "/" 0 (String c s)
               = Py.halve_slashes (String c s).
Proof.
  induction s as [|a s [IH0 IH1]].
  - split; [reflexivity|]. intros c.
    rewrite replace_from_0, prefix_cons.
    simpl. rewrite andb_false_r. reflexivity.
  - split; [apply IH1|]. intros c.
    rewrite replace_from_0, !prefix_cons, prefix_nil, andb_true_r.
    rewrite (Ascii.eqb_sym "/" c), (Ascii.eqb_sym "/" a).
    destruct (Ascii.eqb c "/" && Ascii.eqb a "/") eqn:E.
    + change (String.length "//" - 1) with 1.
      rewrite replace_from_S, IH0.
      apply andb_true_iff in E. destruct E as [Ec Ea].
      apply Ascii.eqb_eq in Ec, Ea. subst. reflexivity.
    + rewrite IH1. symmetry. now apply halve_slashes_other.
Qed.

Lemma replace_double_slash s :
  Py.replace "//" "/" s = Py.halve_slashes s.
Proof. exact (proj1 (replace_from_halve s)). Qed.

(** The induction that follows the recursion of [halve_slashes]. *)
Lemma halve_slashes_ind (P : string -> Prop) :
  P "" ->
  (forall c, P (String c "")) ->
  (forall s, P s -> P (String "/" (String "/" s))) ->
  (forall c d s,
      Ascii.eqb c "/" && Ascii.eqb d "/" = false ->
      P (String d s) -> P (String c (String d s))) ->
  forall s, P s.
Proof.
  intros H0 H1 H2 H3 s.
  assert (H : P s /\ forall c, P (String c s)).
  { induction s as [|a s [IHa IHb]].
    - split; [exact H0 | exact H1].
    - split; [apply IHb|]. intros c.
      destruct (Ascii.eqb c "/" && Ascii.eqb a "/") eqn:E.
      + apply andb_true_iff in E. destruct E as [Ec Ea].
        apply Ascii.eqb_eq in Ec, Ea. subst. apply H2, IHa.
      + apply H3; [exact E | apply IHb]. }
  exact (proj1 H).
Qed.

(** The first character survives the pass. *)
Lemma halve_slashes_head c s :
  exists r, Py.halve_slashes (String c s) = String c r.
Proof.
  destruct s as [|d s]; [now exists ""|].
  destruct (Ascii.eqb c "/" && Ascii.eqb d "/") eqn:E.
  - apply andb_true_iff in E. destruct E as [Ec Ed].
    apply Ascii.eqb_eq in Ec, Ed. subst. eexists. apply halve_slashes_pair.
  - eexists. apply halve_slashes_other. exact E.
Qed.

Lemma lower_halve_slashes s :
  Py.lower (Py.halve_slashes s) = Py.halve_slashes (Py.lower s).
Proof.
  induction s as [| c | s IH | c d s E IH] using halve_slashes_ind.
  - reflexivity.
  - reflexivity.
  - change (Py.lower (String "/" (String "/" s)))
      with (String "/" (String "/" (Py.lower s))).
    rewrite !halve_slashes_pair. simpl. now rewrite IH.
  - rewrite halve_slashes_other by exact E.
    change (Py.lower (String c (String d s)))
      with (String (Py.lower_char c) (Py.lower (String d s))).
    change (Py.lower (String c (Py.halve_slashes (String d s))))
      with (String (Py.lower_char c)
                   (Py.lower (Py.halve_slashes (String d s)))).
    rewrite IH.
    change (Py.lower (String d s))
      with (String (Py.lower_char d) (Py.lower s)).
    rewrite halve_slashes_other; [reflexivity|].
    now rewrite !lower_char_slash.
Qed.

Lemma contains_two_cons c d s :
  Py.contains "//" (String c (String d s))
  = (Ascii.eqb c "/" && Ascii.eqb d "/") || Py.contains "//" (String d s).
Proof.
  cbn [Py.contains]. rewrite !prefix_cons, prefix_nil.
  rewrite andb_true_r, (Ascii.eqb_sym "/" c), (Ascii.eqb_sym "/" d).
  reflexivity.
Qed.

Lemma halve_slashes_fixed s :
  Py.contains "//" s = false -> Py.halve_slashes s = s.
Proof.
  induction s as [| c | s IH | c d s E IH] using halve_slashes_ind;
    intros H; try reflexivity.
  - rewrite contains_two_cons in H. discriminate.
  - rewrite halve_slashes_other by exact E.
    rewrite contains_two_cons in H. apply orb_false_iff in H.
    now rewrite IH.
Qed.

Lemma contains_three_cons c d s :
  Py.contains "///" (String c (String d s)) = false ->
  Py.contains "///" (String d s) = false
  /\ (Ascii.eqb c "/" && Ascii.eqb d "/" = true ->
      forall r, s <> String "/" r).
Proof.
  intros H. cbn [Py.contains] in H. apply orb_false_iff in H.
  destruct H as [Hp Hc]. split; [exact Hc|].
  intros E r ->. apply andb_true_iff in E. destruct E as [Ec Ed].
  apply Ascii.eqb_eq in Ec, Ed. subst.
  rewrite !prefix_cons, prefix_nil in Hp. discriminate.
Qed.

(** Runs of at most two slashes are collapsed by the pass. *)
Lemma halve_slashes_no_double s :
  Py.contains "///" s = false ->
  Py.contains "//" (Py.halve_slashes s) = false.
Proof.
  induction s as [| c | s IH | c d s E IH] using halve_slashes_ind;
    intros H.
  - reflexivity.
  - cbn [Py.halve_slashes Py.contains]. rewrite prefix_cons. simpl.
    now rewrite andb_false_r.
  - rewrite halve_slashes_pair.
    destruct (contains_three_cons _ _ _ H) as [H1 H2].
    specialize (H2 eq_refl).
    assert (H3 : Py.contains "///" s = false).
    { cbn [Py.contains] in H1. now apply orb_false_iff in H1. }
    specialize (IH H3).
    destruct s as [|e s]; [reflexivity|].
    destruct (halve_slashes_head e s) as [r Hr]. rewrite Hr in *.
    rewrite contains_two_cons, IH. rewrite orb_false_r.
    destruct (Ascii.eqb e "/") eqn:Ee; [|reflexivity].
    apply Ascii.eqb_eq in Ee. subst. now contradiction (H2 s).
  - rewrite halve_slashes_other by exact E.
    destruct (contains_three_cons _ _ _ H) as [H1 _].
    specialize (IH H1).
    destruct (halve_slashes_head d s) as [r Hr]. rewrite Hr in *.
    now rewrite contains_two_cons, E, IH.
Qed.

Lemma contains_three_lower s :
  Py.contains "///" (Py.lower s) = Py.contains "///" s.
Proof.
  induction s as [|c s IH]; [reflexivity|].
  cbn [Py.lower Py.contains]. rewrite IH. f_equal.
  rewrite !prefix_cons, (Ascii.eqb_sym "/" (Py.lower_char c)),
    lower_char_slash, (Ascii.eqb_sym c "/").
  destruct s as [|d s]; [reflexivity|].
  cbn [Py.lower]. rewrite !prefix_cons, (Ascii.eqb_sym "/" (Py.lower_char d)),
    lower_char_slash, (Ascii.eqb_sym d "/").
  destruct s as [|e s]; [reflexivity|].
  cbn [Py.lower]. rewrite !prefix_cons, (Ascii.eqb_sym "/" (Py.lower_char e)),
    lower_char_slash, (Ascii.eqb_sym e "/").
  rewrite !prefix_nil. reflexivity.
Qed.

(** *** [rstrip('/')] *)


Lemma rstrip_cons_kept c a s b r :
  Py.rstrip c s = String b r ->
  Py.rstrip c (String a s) = String a (String b r).
Proof. intros H. cbn [Py.rstrip]. now rewrite H. Qed.

Lemma rstrip_idempotent c s : Py.rstrip c (Py.rstrip c s) = Py.rstrip c s.
Proof.
  induction s as [|a s IH]; [reflexivity|].
  cbn [Py.rstrip]. destruct (Py.rstrip c s) as [|b r] eqn:E.
  - destruct (Ascii.eqb a c) eqn:Ea; [reflexivity|].
    simpl. now rewrite Ea.
  - now apply rstrip_cons_kept.
Qed.

Lemma rstrip_is_prefix c s : exists t, s = Py.rstrip c s ++ t.
Proof.
  induction s as [|a s [t IH]]; [now exists ""|].
  cbn [Py.rstrip]. destruct (Py.rstrip c s) as [|b r] eqn:E.
  - destruct (Ascii.eqb a c).
    + now exists (String a s).
    + exists s. reflexivity.
  - exists t. change (String a (String b r) ++ t)
      with (String a (String b r ++ t)). now rewrite <- IH.
Qed.

Lemma lower_rstrip s :
  Py.lower (Py.rstrip "/" s) = Py.rstrip "/" (Py.lower s).
Proof.
  induction s as [|a s IH]; [reflexivity|].
  cbn [Py.rstrip Py.lower]. rewrite <- IH.
  destruct (Py.rstrip "/" s) as [|b r]; [|reflexivity].
  cbn [Py.lower]. rewrite lower_char_slash.
  destruct (Ascii.eqb a "/"); reflexivity.
Qed.

Lemma rstrip_no_double s :
  Py.contains "//" s = false -> Py.contains "//" (Py.rstrip "/" s) = false.
Proof.
  intros H. destruct (rstrip_is_prefix "/" s) as [t Ht].
  rewrite Ht in H. now apply contains_app_false in H.
Qed.

(** *** [clean_href] *)

Lemma clean_href_halve s :
  clean_href s = Py.rstrip "/" (Py.halve_slashes (Py.lower s)).
Proof. unfold clean_href. now rewrite replace_double_slash. Qed.

Lemma clean_href_lower s : Py.lower (clean_href s) = clean_href s.
Proof.
  rewrite clean_href_halve, lower_rstrip, lower_halve_slashes,
    lower_idempotent. reflexivity.
Qed.

Lemma clean_href_rstrip s : Py.rstrip "/" (clean_href s) = clean_href s.
Proof. unfold clean_href. apply rstrip_idempotent. Qed.

Lemma clean_href_no_double s :
  Py.contains "///" s = false -> Py.contains "//" (clean_href s) = false.
Proof.
  intros H. rewrite clean_href_halve. apply rstrip_no_double.
  apply halve_slashes_no_double. now rewrite contains_three_lower.
Qed.


(** On hrefs without a run of three slashes, cleaning twice changes
    nothing more. *)
Lemma clean_href_idempotent_short_runs s :
  Py.contains "///" s = false -> clean_href (clean_href s) = clean_href s.
Proof.
  intros H.
  rewrite (clean_href_halve (clean_href s)), clean_href_lower.
  rewrite halve_slashes_fixed by now apply clean_href_no_double.
  apply clean_href_rstrip.
Qed.

Lemma clean_href_idempotent_short_runs_witness :
  clean_href (clean_href "/Tools//BMI-Calculator//")
  = clean_href "/Tools//BMI-Calculator//".
Proof.
  apply clean_href_idempotent_short_runs. reflexivity.
Defined.



(** C4. On an href with a run of three slashes the chain
    [lower().replace('//', '/').rstrip('/')] is not idempotent: the single
    pass of [replace] leaves a pair, which a second application removes. *)
Theorem clean_href_not_idempotent :
  clean_href "/tools/a///b" = "/tools/a//b"
  /\ clean_href (clean_href "/tools/a///b") = "/tools/a/b"
  /\ clean_href (clean_href "/tools/a///b") <> clean_href "/tools/a///b".
Proof.
  split; [reflexivity|]. split; [reflexivity|]. discriminate.
Qed.

End NormalizerProofs.

(** ** Dictionaries *)

Module DictFacts.

Section Dict.
Context {V : Type}.
Implicit Types (k : string) (v : V) (d : list (string * V)).

Lemma dict_get_set_same k v d : Py.dict_get k (Py.dict_set k v d) = Some v.
Proof.
  induction d as [|[k' v'] d IH]; simpl.
  - now rewrite String.eqb_refl.
  - destruct (String.eqb k k') eqn:E; simpl.
    + now rewrite String.eqb_refl.
    + now rewrite E.
Qed.

Lemma dict_get_set_other k k' v d :
  k' <> k -> Py.dict_get k' (Py.dict_set k v d) = Py.dict_get k' d.
Proof.
  intros Hne. induction d as [|[k0 v0] d IH]; simpl.
  - apply String.eqb_neq in Hne. now rewrite Hne.
  - destruct (String.eqb k k0) eqn:E; simpl.
    + apply String.eqb_eq in E. subst k0.
      apply String.eqb_neq in Hne. now rewrite Hne.
    + now rewrite IH.
Qed.

Lemma dict_keys_set_In k k' v d :
  In k' (Py.dict_keys (Py.dict_set k v d)) <-> k' = k \/ In k' (Py.dict_keys d).
Proof.
  induction d as [|[k0 v0] d IH]; simpl.
  - intuition.
  - destruct (String.eqb k k0) eqn:E; simpl.
    + apply String.eqb_eq in E. subst. intuition.
    + rewrite IH. intuition.
Qed.

Lemma dict_keys_set_NoDup k v d :
  NoDup (Py.dict_keys d) -> NoDup (Py.dict_keys (Py.dict_set k v d)).
Proof.
  induction d as [|[k0 v0] d IH]; simpl; intros H.
  - constructor; [intros []|constructor].
  - inversion H as [|? ? Hnin Hnd]; subst.
    destruct (String.eqb k k0) eqn:E; simpl.
    + apply String.eqb_eq in E. subst. now constructor.
    + constructor; [|now apply IH].
      change (~ In k0 (Py.dict_keys (Py.dict_set k v d))).
      rewrite dict_keys_set_In. intros [-> | Hin].
      * rewrite String.eqb_refl in E. discriminate.
      * exact (Hnin Hin).
Qed.

Lemma dict_get_In k v d : Py.dict_get k d = Some v -> In (k, v) d.
Proof.
  induction d as [|[k0 v0] d IH]; simpl; [discriminate|].
  destruct (String.eqb k k0) eqn:E.
  - apply String.eqb_eq in E. intros [= ->]. left. now subst.
  - intros H. right. now apply IH.
Qed.

Lemma dict_In_get k v d :
  NoDup (Py.dict_keys d) -> In (k, v) d -> Py.dict_get k d = Some v.
Proof.
  induction d as [|[k0 v0] d IH]; simpl; intros Hnd Hin; [contradiction|].
  inversion Hnd as [|? ? Hnin Hnd']; subst.
  destruct Hin as [[= -> ->] | Hin].
  - now rewrite String.eqb_refl.
  - destruct (String.eqb k k0) eqn:E; [|now apply IH].
    apply String.eqb_eq in E. subst. contradiction Hnin.
    change (In (fst (k0, v)) (map fst d)). now apply in_map.
Qed.

Lemma dict_get_keys k d :
  In k (Py.dict_keys d) <-> Py.dict_get k d <> None.
Proof.
  induction d as [|[k0 v0] d IH]; simpl.
  - intuition.
  - destruct (String.eqb k k0) eqn:E.
    + apply String.eqb_eq in E. subst. split; [discriminate|auto].
    + apply String.eqb_neq in E. rewrite <- IH. intuition congruence.
Qed.

End Dict.

Lemma dict_get_map_values {V W : Type} (f : V -> W) k (d : list (string * V)) :
  Py.dict_get k (map (fun e => (fst e, f (snd e))) d)
  = option_map f (Py.dict_get k d).
Proof.
  induction d as [|[k0 v0] d IH]; simpl; [reflexivity|].
  destruct (String.eqb k k0); [reflexivity|exact IH].
Qed.

Lemma dict_keys_map_values {V W : Type} (f : V -> W) (d : list (string * V)) :
  Py.dict_keys (map (fun e => (fst e, f (snd e))) d) = Py.dict_keys d.
Proof.
  unfold Py.dict_keys. rewrite map_map. reflexivity.
Qed.

End DictFacts.

(** ** Sorting *)

Module SortFacts.

Lemma leb_cons x a y b :
  String.leb (String x a) (String y b) = true <->
  (N_of_ascii x < N_of_ascii y)%N \/ (x = y /\ String.leb a b = true).
Proof.
  unfold String.leb. cbn [String.compare]. unfold Ascii.compare.
  destruct (N.compare_spec (N_of_ascii x) (N_of_ascii y)) as [E|L|G].
  - assert (x = y).
    { rewrite <- (ascii_N_embedding x), <- (ascii_N_embedding y). now f_equal. }
    subst. split; [auto|]. intros [L|[_ H]]; [lia|exact H].
  - split; auto.
  - split; [discriminate|]. intros [L|[-> _]]; lia.
Qed.

Lemma leb_nil_l s : String.leb "" s = true.
Proof. destruct s; reflexivity. Qed.

Lemma leb_trans a b c :
  String.leb a b = true -> String.leb b c = true -> String.leb a c = true.
Proof.
  revert b c. induction a as [|x a IH]; intros b c Hab Hbc.
  - apply leb_nil_l.
  - destruct b as [|y b]; [discriminate|].
    destruct c as [|z c]; [discriminate|].
    rewrite leb_cons in *.
    destruct Hab as [L1|[-> H1]], Hbc as [L2|[-> H2]].
    + left. lia.
    + left. exact L1.
    + left. exact L2.
    + right. split; [reflexivity|]. now apply (IH b).
Qed.

Section Sorting.
Context {A : Type} (key : A -> string).

Lemma insert_sorted_perm x l :
  Permutation (Py.insert_sorted key x l) (x :: l).
Proof.
  induction l as [|y l IH]; simpl; [reflexivity|].
  destruct (String.leb (key x) (key y)); [reflexivity|].
  rewrite IH. apply perm_swap.
Qed.

Lemma sorted_perm l : Permutation (Py.sorted key l) l.
Proof.
  induction l as [|x l IH]; simpl; [reflexivity|].
  rewrite insert_sorted_perm. now constructor.
Qed.

Lemma insert_sorted_Sorted x l :
  Sorted (Py.key_le key) l -> Sorted (Py.key_le key) (Py.insert_sorted key x l).
Proof.
  induction l as [|y l IH]; simpl; intros H.
  - repeat constructor.
  - inversion H as [|? ? Hs Hh]; subst.
    destruct (String.leb (key x) (key y)) eqn:E.
    + constructor; [exact H|]. constructor. exact E.
    + constructor; [now apply IH|].
      assert (Hyx : (Py.key_le key) y x).
      { destruct (String.leb_total (key x) (key y)); [congruence|assumption]. }
      destruct l as [|z l]; simpl.
      * constructor. exact Hyx.
      * destruct (String.leb (key x) (key z)).
        -- constructor. exact Hyx.
        -- inversion Hh; subst. now constructor.
Qed.

Lemma sorted_Sorted l : Sorted (Py.key_le key) (Py.sorted key l).
Proof.
  induction l as [|x l IH]; simpl; [constructor|].
  now apply insert_sorted_Sorted.
Qed.

Lemma sorted_In x l : In x (Py.sorted key l) <-> In x l.
Proof.
  split; apply Permutation_in;
    [apply sorted_perm | apply Permutation_sym, sorted_perm].
Qed.

Lemma sorted_nil_inv l : Py.sorted key l = [] -> l = [].
Proof.
  intros H. apply Permutation_nil. rewrite <- H. apply sorted_perm.
Qed.

Lemma leb_refl s : String.leb s s = true.
Proof. destruct (String.leb_total s s); assumption. Qed.

(** An insertion goes in front of the elements with the same key. *)
Lemma insert_sorted_filter n x l :
  filter (fun y => String.eqb (key y) n) (Py.insert_sorted key x l)
  = if String.eqb (key x) n
    then x :: filter (fun y => String.eqb (key y) n) l
    else filter (fun y => String.eqb (key y) n) l.
Proof.
  induction l as [|y l IH]; [reflexivity|].
  cbn [Py.insert_sorted].
  destruct (String.leb (key x) (key y)) eqn:E; [reflexivity|].
  cbn [filter]. rewrite IH.
  destruct (String.eqb (key x) n) eqn:Ex; [|reflexivity].
  destruct (String.eqb (key y) n) eqn:Ey; [|reflexivity].
  apply String.eqb_eq in Ex, Ey. rewrite Ex, Ey, leb_refl in E. discriminate.
Qed.

(** The sort is stable: the elements with one key keep their order. *)
Lemma sorted_stable n l :
  filter (fun y => String.eqb (key y) n) (Py.sorted key l)
  = filter (fun y => String.eqb (key y) n) l.
Proof.
  induction l as [|x l IH]; [reflexivity|].
  cbn [Py.sorted filter]. now rewrite insert_sorted_filter, IH.
Qed.

(** Two insertions of elements with different keys commute. *)
Lemma insert_sorted_comm x y l :
  key x <> key y ->
  Py.insert_sorted key x (Py.insert_sorted key y l)
  = Py.insert_sorted key y (Py.insert_sorted key x l).
Proof.
  intros Hne.
  assert (Hxy : String.leb (key x) (key y) = negb (String.leb (key y) (key x))).
  { destruct (String.leb (key x) (key y)) eqn:E1,
             (String.leb (key y) (key x)) eqn:E2; try reflexivity.
    - contradiction Hne. now apply String.leb_antisym.
    - destruct (String.leb_total (key x) (key y)); congruence. }
  induction l as [|z l IH]; cbn [Py.insert_sorted].
  - rewrite Hxy. destruct (String.leb (key y) (key x)); reflexivity.
  - destruct (String.leb (key y) (key z)) eqn:Eyz,
             (String.leb (key x) (key z)) eqn:Exz;
      cbn [Py.insert_sorted]; rewrite ?Eyz, ?Exz, ?Hxy;
      destruct (String.leb (key y) (key x)) eqn:Eyx; cbn [negb] in *;
      try reflexivity.
    + exfalso. rewrite (leb_trans _ _ _ Hxy Eyz) in Exz. discriminate.
    + exfalso. rewrite (leb_trans _ _ _ Eyx Exz) in Eyz. discriminate.
    + now rewrite IH.
    + now rewrite IH.
Qed.

(** Sorting does not see the order of the input when the keys of the
    elements kept by [f] are pairwise different. *)
Lemma sorted_filter_perm (f : A -> bool) l1 l2 :
  Permutation l1 l2 ->
  NoDup (map key (filter f l1)) ->
  Py.sorted key (filter f l1) = Py.sorted key (filter f l2).
Proof.
  induction 1 as [|x l1 l2 Hp IH|x y l|l1 l2 l3 Hp1 IH1 Hp2 IH2]; intros Hnd.
  - reflexivity.
  - simpl in *. destruct (f x); simpl in *.
    + inversion Hnd; subst. now rewrite IH.
    + now apply IH.
  - simpl in *. destruct (f y) eqn:Ey, (f x) eqn:Ex; simpl in *;
      try reflexivity.
    apply insert_sorted_comm.
    inversion Hnd as [|? ? Hnin _]; subst. intros Heq. apply Hnin.
    left. now symmetry.
  - rewrite IH1 by exact Hnd. apply IH2.
    assert (Hpf : Permutation (filter f l1) (filter f l2)).
    { clear -Hp1. induction Hp1; simpl.
      - constructor.
      - destruct (f x); [now constructor|assumption].
      - destruct (f y), (f x); try reflexivity. apply perm_swap.
      - etransitivity; eassumption. }
    eapply Permutation_NoDup; [|exact Hnd].
    now apply Permutation_map.
Qed.

End Sorting.

End SortFacts.

(** ** Runs *)

Module RunFacts.

Lemma and_then_failed r k e : exception r = Some e -> and_then r k = r.
Proof. unfold and_then. now intros ->. Qed.

Lemma and_then_completed r k :
  exception r = None -> and_then r k = k (files_written r).
Proof. unfold and_then. now intros ->. Qed.

(** A sequence that completes: both halves did. *)
Lemma and_then_completed_inv r k fs :
  and_then r k = completed fs ->
  exists fs0, r = completed fs0 /\ k fs0 = completed fs.
Proof.
  destruct r as [fw [e|]]; unfold and_then; cbn [exception files_written].
  - discriminate.
  - intros H. now exists fw.
Qed.

Lemma write_file_completed env path doc fs fs1 :
  write_file env path doc fs = completed fs1 ->
  can_open env fs path = true /\ fs1 = (fs ++ [(path, doc)])%list.
Proof.
  unfold write_file. destruct (can_open env fs path); [|discriminate].
  intros [= <-]. now split.
Qed.

Lemma firstn_incl {A : Type} (k : nat) (l : list A) (x : A) :
  In x (firstn k l) -> In x l.
Proof.
  revert l. induction k as [|k IH]; intros [|y l] H; try contradiction.
  destruct H as [->|H]; [now left|right; now apply IH].
Qed.

End RunFacts.

(** ** The catalogue-driven generator *)

Module GeneratorProofs.
Import ToolsSitemapGenerator DictFacts SortFacts RunFacts.

(** What the first loop of [group_tools_by_category] leaves under a
    key: the tools of that category, in the order of the input. *)
Lemma group_loop_get c tools acc :
  Py.dict_get c (group_loop tools acc)
  = match Py.dict_get c acc, filter (of_category c) tools with
    | Some l, extra => Some (l ++ extra)%list
    | None, [] => None
    | None, extra => Some extra
    end.
Proof.
  revert acc. induction tools as [|tool rest IH]; intros acc.
  - simpl. destruct (Py.dict_get c acc); [now rewrite app_nil_r|reflexivity].
  - cbn [group_loop filter]. rewrite IH.
    destruct (of_category c tool) eqn:E; unfold of_category in E.
    + apply String.eqb_eq in E. subst c.
      rewrite dict_get_set_same.
      destruct (Py.dict_get (category tool) acc); cbn.
      * rewrite <- app_assoc. reflexivity.
      * reflexivity.
    + apply String.eqb_neq in E.
      rewrite dict_get_set_other by congruence. reflexivity.
Qed.

Lemma group_loop_NoDup tools acc :
  NoDup (Py.dict_keys acc) -> NoDup (Py.dict_keys (group_loop tools acc)).
Proof.
  revert acc. induction tools as [|tool rest IH]; intros acc H; [exact H|].
  cbn [group_loop]. apply IH. now apply dict_keys_set_NoDup.
Qed.

Lemma group_get c tools :
  Py.dict_get c (group_tools_by_category tools)
  = match filter (of_category c) tools with
    | [] => None
    | extra => Some (Py.sorted name extra)
    end.
Proof.
  unfold group_tools_by_category.
  rewrite (dict_get_map_values (Py.sorted name)), group_loop_get.
  cbn [Py.dict_get]. destruct (filter (of_category c) tools); reflexivity.
Qed.

Lemma group_NoDup tools :
  NoDup (Py.dict_keys (group_tools_by_category tools)).
Proof.
  unfold group_tools_by_category.
  rewrite (dict_keys_map_values (Py.sorted name)).
  apply group_loop_NoDup. constructor.
Qed.

Lemma filter_of_category_nonempty c tools :
  filter (of_category c) tools <> [] <->
  exists tool, In tool tools /\ category tool = c.
Proof.
  split.
  - destruct (filter (of_category c) tools) as [|x l] eqn:E; [congruence|].
    intros _. assert (H : In x (filter (of_category c) tools))
      by (rewrite E; now left).
    apply filter_In in H. destruct H as [Hin Hc].
    exists x. split; [exact Hin|]. now apply String.eqb_eq.
  - intros (tool & Hin & Hc) E.
    assert (H : In tool (filter (of_category c) tools)).
    { apply filter_In. split; [exact Hin|]. now apply String.eqb_eq. }
    rewrite E in H. contradiction.
Qed.

(** The keys of the grouping are the categories of the tools. *)
Lemma group_keys c tools :
  In c (Py.dict_keys (group_tools_by_category tools)) <->
  exists tool, In tool tools /\ category tool = c.
Proof.
  rewrite dict_get_keys, group_get, <- filter_of_category_nonempty.
  destruct (filter (of_category c) tools); split; congruence.
Qed.

(** Every group is the sorted list of the tools of its category, and is
    not empty. *)
Lemma group_entry c l tools :
  In (c, l) (group_tools_by_category tools) ->
  l = Py.sorted name (filter (of_category c) tools) /\ l <> [].
Proof.
  intros Hin. apply (dict_In_get _ _ _ (group_NoDup tools)) in Hin.
  rewrite group_get in Hin.
  destruct (filter (of_category c) tools) as [|x r] eqn:E; [discriminate|].
  injection Hin as <-. split; [reflexivity|].
  intros H. apply (sorted_nil_inv name (x :: r)) in H. discriminate.
Qed.

(** With no empty group, the loop writes the files of the entries one
    after the other and stops where [open] raises. *)
Lemma write_categories_written env self d fs :
  (forall c l, In (c, l) d -> l <> []) ->
  exists k,
    files_written (write_categories env self d fs)
    = (fs ++ map (fun e => (category_file self (fst e),
                            sitemap_document self (snd e)))
                 (firstn k d))%list
    /\ (exception (write_categories env self d fs) = None ->
        firstn k d = d).
Proof.
  revert fs. induction d as [|[c l] d IH]; intros fs H.
  - exists 0. simpl. now rewrite app_nil_r.
  - assert (Hl : l <> []) by (apply (H c); now left).
    assert (Hd : forall c' l', In (c', l') d -> l' <> [])
      by (intros c' l' Hin; apply (H c'); now right).
    destruct l as [|x l]; [congruence|].
    cbn [write_categories]. unfold create_sitemap_xml, write_file.
    destruct (can_open env _) eqn:E.
    + unfold and_then. cbn [completed exception files_written].
      destruct (IH (fs ++ [(Py.path_join (output_dir self)
                              ("sitemap-" ++ c ++ ".xml"),
                            sitemap_document self (x :: l))])%list Hd)
        as (k & Hw & Hfull).
      exists (S k). split.
      * rewrite Hw, <- app_assoc. reflexivity.
      * intros He. cbn [firstn]. now rewrite (Hfull He).
    + exists 0. unfold and_then. cbn [failed exception files_written firstn map].
      split; [now rewrite app_nil_r|discriminate].
Qed.

(** The files of a run: category sitemaps in the order of first
    appearance, as far as the loop got, then the main sitemap and the
    index, as far as the run got. A run that does not raise wrote them
    all. *)
Lemma generate_sitemaps_written env self src tools :
  parse_tools_from_ts self src = Ok tools ->
  exists k tail,
    files_written (generate_sitemaps env self src)
    = (map (fun e => (category_file self (fst e),
                      sitemap_document self (snd e)))
           (firstn k (group_tools_by_category tools)) ++ tail)%list
    /\ (tail = []
        \/ tail = [ (Py.path_join (output_dir self) "sitemap-main.xml",
                     main_document self) ]
        \/ tail = [ (Py.path_join (output_dir self) "sitemap-main.xml",
                     main_document self);
                    (Py.path_join (output_dir self) "sitemap.xml",
                     index_document self
                       (Py.dict_keys (group_tools_by_category tools))) ])
    /\ (exception (generate_sitemaps env self src) = None ->
        tools <> [] ->
        firstn k (group_tools_by_category tools)
        = group_tools_by_category tools
        /\ tail = [ (Py.path_join (output_dir self) "sitemap-main.xml",
                     main_document self);
                    (Py.path_join (output_dir self) "sitemap.xml",
                     index_document self
                       (Py.dict_keys (group_tools_by_category tools))) ]).
Proof.
  intros Hp. unfold generate_sitemaps. rewrite Hp.
  destruct tools as [|t0 ts].
  - exists 0, []. cbn [firstn map app completed files_written exception].
    split; [reflexivity|]. split; [now left|]. congruence.
  - set (tools := t0 :: ts) in *.
    destruct (makedirs env (output_dir self)).
    + exists 0, []. cbn [firstn map app failed files_written exception].
      split; [reflexivity|]. split; [now left|]. discriminate.
    + destruct (write_categories_written env self
                  (group_tools_by_category tools) [])
        as (k & Hw & Hfull).
      { intros c l H. now apply group_entry in H. }
      cbn [app] in Hw. exists k.
      destruct (exception (write_categories env self
                             (group_tools_by_category tools) [])) eqn:Ee.
      * rewrite (and_then_failed _ _ _ Ee). exists [].
        rewrite app_nil_r. split; [exact Hw|].
        split; [now left|]. rewrite Ee. discriminate.
      * rewrite (and_then_completed _ _ Ee), Hw.
        unfold create_main_sitemap, create_sitemap_index, write_file.
        destruct (can_open env _ (Py.path_join (output_dir self)
                                    "sitemap-main.xml")).
        -- rewrite and_then_completed by reflexivity.
           cbn [completed files_written].
           destruct (can_open env _ (Py.path_join (output_dir self)
                                       "sitemap.xml")).
           ++ eexists. cbn [completed exception files_written].
              split; [now rewrite <- app_assoc|].
              split; [right; right; reflexivity|].
              intros _ _. split; [now apply Hfull|reflexivity].
           ++ eexists. cbn [failed exception files_written].
              split; [reflexivity|]. split; [right; left; reflexivity|].
              discriminate.
        -- rewrite (and_then_failed _ _ (OSError _)) by reflexivity.
           exists []. cbn [failed exception files_written].
           rewrite app_nil_r. split; [reflexivity|]. split; [now left|].
           discriminate.
Qed.

(** The file of the category of a tool, and the entry of the tool in it. *)
Lemma tool_in_category_file self tools tool :
  In tool tools ->
  In (category_file self (category tool),
      sitemap_document self
        (Py.sorted name (filter (of_category (category tool)) tools)))
     (map (fun e => (category_file self (fst e),
                     sitemap_document self (snd e)))
          (group_tools_by_category tools))
  /\ In tool (Py.sorted name (filter (of_category (category tool)) tools)).
Proof.
  intros Hin.
  assert (Hf : In tool (filter (of_category (category tool)) tools)).
  { apply filter_In. split; [exact Hin|]. apply String.eqb_refl. }
  split; [|now apply sorted_In].
  pose proof (group_get (category tool) tools) as Hg.
  destruct (filter (of_category (category tool)) tools) as [|x r] eqn:E;
    [contradiction|].
  apply dict_get_In in Hg.
  apply (in_map (fun e => (category_file self (fst e),
                           sitemap_document self (snd e)))) in Hg.
  exact Hg.
Qed.

End GeneratorProofs.

(** ** The splitter *)

Module SplitterProofs.
Import SitemapSplitter DictFacts CategorizerProofs RunFacts.

Lemma categorize_url_in_keys input_file base_url now url :
  exists c,
    categorize_url (init input_file base_url now) url = Ok c
    /\ In c (Py.dict_keys default_categories).
Proof.
  rewrite categorize_url_scan.
  destruct (scan_categories default_categories _) as [c|] eqn:E.
  - exists c. split; [reflexivity|].
    destruct (scan_categories_Some _ _ _ E) as (b & data & a & -> & _).
    unfold Py.dict_keys. rewrite map_app. apply in_or_app. right. now left.
  - exists "main". split; [reflexivity|]. now left.
Qed.

Lemma dict_append_ok k u d :
  In k (Py.dict_keys d) -> exists d', dict_append k u d = Ok d'.
Proof.
  induction d as [|[k' l] d IH]; simpl; intros H; [contradiction|].
  destruct (String.eqb k k') eqn:E; [eauto|].
  destruct H as [H|H].
  - subst. rewrite String.eqb_refl in E. discriminate.
  - destruct (IH H) as [d' ->]. simpl. eauto.
Qed.

Lemma dict_append_spec k u d d' :
  dict_append k u d = Ok d' ->
  Py.dict_keys d' = Py.dict_keys d
  /\ forall c,
       Py.dict_get c d'
       = if String.eqb c k
         then option_map (fun l => l ++ [u])%list (Py.dict_get c d)
         else Py.dict_get c d.
Proof.
  revert d'. induction d as [|[k' l] d IH]; simpl; intros d' H; [discriminate|].
  destruct (String.eqb k k') eqn:E.
  - injection H as <-. split; [reflexivity|]. intros c. simpl.
    apply String.eqb_eq in E. subst k'.
    destruct (String.eqb c k); reflexivity.
  - destruct (dict_append k u d) as [d''|] eqn:Ed; simpl in H; [|discriminate].
    injection H as <-. destruct (IH _ eq_refl) as [Hk Hg].
    split; [simpl; now rewrite Hk|]. intros c. simpl. rewrite Hg.
    destruct (String.eqb c k') eqn:Ec; [|reflexivity].
    apply String.eqb_eq in Ec. subst c.
    rewrite String.eqb_sym, E. reflexivity.
Qed.

(** The categorisation loop appends to every group the records of its
    category, in the order of the input. *)
Lemma categorize_all_spec self urls acc dict :
  categorize_all self urls acc = Ok dict ->
  Py.dict_keys dict = Py.dict_keys acc
  /\ forall c,
       Py.dict_get c dict
       = option_map (fun l => l ++ filter (in_category self c) urls)%list
                    (Py.dict_get c acc).
Proof.
  revert acc. induction urls as [|u rest IH]; intros acc H.
  - injection H as <-. split; [reflexivity|]. intros c.
    destruct (Py.dict_get c acc); simpl; [now rewrite app_nil_r|reflexivity].
  - cbn [categorize_all] in H.
    destruct (url_of u) as [url|] eqn:Eu; [|discriminate].
    destruct (categorize_url self url) as [cat|] eqn:Ec; [|discriminate].
    cbn [bind] in H.
    destruct (dict_append cat u acc) as [acc'|] eqn:Ea; [|discriminate].
    cbn [bind] in H.
    destruct (dict_append_spec _ _ _ _ Ea) as [Hk Hg].
    destruct (IH _ H) as [Hk' Hg'].
    split; [congruence|]. intros c. rewrite Hg', Hg.
    cbn [filter]. unfold in_category at 2. rewrite Eu, Ec.
    rewrite (String.eqb_sym cat c).
    destruct (String.eqb c cat); [|reflexivity].
    destruct (Py.dict_get c acc); simpl; [|reflexivity].
    now rewrite <- app_assoc.
Qed.


(** The dict the loop starts from. *)
Lemma empty_groups_get c (keys : list string) :
  In c keys ->
  Py.dict_get c (map (fun category => (category, @nil url_data)) keys)
  = Some [].
Proof.
  induction keys as [|k keys IH]; simpl; intros H; [contradiction|].
  destruct (String.eqb c k) eqn:E; [reflexivity|].
  destruct H as [H|H]; [|now apply IH].
  subst. rewrite String.eqb_refl in E. discriminate.
Qed.

Lemma empty_groups_keys (keys : list string) :
  Py.dict_keys (map (fun category => (category, @nil url_data)) keys) = keys.
Proof.
  unfold Py.dict_keys. rewrite map_map. apply map_id.
Qed.

(** The loop that writes, when it completes: one file for every group
    that is not empty, after the files that were there. *)
Lemma write_categories_spec env self d fs fs1 :
  write_categories env self d fs = completed fs1 ->
  exists fs',
    fs1 = (fs ++ fs')%list
    /\ (forall c urls data,
           In (c, urls) d -> urls <> [] ->
           Py.dict_get c (categories self) = Some data ->
           In (file data, sitemap_document urls) fs')
    /\ (forall filename doc,
           In (filename, doc) fs' ->
           exists c urls data,
             In (c, urls) d /\ urls <> []
             /\ Py.dict_get c (categories self) = Some data
             /\ filename = file data /\ doc = sitemap_document urls).
Proof.
  revert fs. induction d as [|[c urls] d IH]; intros fs H.
  - injection H as <-. exists []. rewrite app_nil_r.
    repeat split; intros; contradiction.
  - cbn [write_categories] in H. destruct urls as [|u urls].
    + destruct (IH fs H) as (fs' & -> & Hin & Hout).
      exists fs'. split; [reflexivity|]. split.
      * intros c' urls' data [[= <- <-]|H'] Hne; [congruence|].
        now apply Hin.
      * intros filename doc H'.
        destruct (Hout _ _ H') as (c' & urls' & data & H1 & H2).
        exists c', urls', data. split; [now right|exact H2].
    + destruct (Py.dict_get c (categories self)) as [data|] eqn:Ec;
        [|discriminate].
      apply and_then_completed_inv in H. destruct H as (fs0 & Hw & H).
      apply write_file_completed in Hw. destruct Hw as [_ ->].
      destruct (IH _ H) as (fs' & -> & Hin & Hout).
      exists ((file data, sitemap_document (u :: urls)) :: fs').
      split; [now rewrite <- app_assoc|]. split.
      * intros c' urls' data' [[= <- <-]|H'] Hne Hd.
        -- left. congruence.
        -- right. now apply (Hin c').
      * intros filename doc [[= <- <-]|H'].
        -- exists c, (u :: urls), data.
           repeat split; [now left|discriminate|exact Ec].
        -- destruct (Hout _ _ H') as (c' & urls' & data' & H1 & H2).
           exists c', urls', data'. split; [now right|exact H2].
Qed.


(** What completes, completes with the same files where every file can
    be opened. *)
Lemma write_categories_obliging env self d fs fs1 :
  write_categories env self d fs = completed fs1 ->
  write_categories Examples.obliging self d fs = completed fs1.
Proof.
  revert fs. induction d as [|[c urls] d IH]; intros fs H; [exact H|].
  cbn [write_categories] in *. destruct urls as [|u urls]; [now apply IH|].
  destruct (Py.dict_get c (categories self)) as [data|]; [|discriminate].
  apply and_then_completed_inv in H. destruct H as (fs0 & Hw & H).
  apply write_file_completed in Hw. destruct Hw as [_ ->].
  unfold create_sitemap_xml, write_file.
  cbn [can_open Examples.obliging].
  rewrite and_then_completed by reflexivity. now apply IH.
Qed.

(** What a run that completes wrote: nothing, or the category sitemaps
    of the grouping of the records and then the index. *)
Lemma split_sitemap_completed env self input fs :
  split_sitemap env self input = completed fs ->
  exists all_urls,
    parse_existing_sitemap self input = Ok all_urls
    /\ ((all_urls = [] /\ fs = [])
        \/ exists dict cats,
             all_urls <> []
             /\ categorize_all self all_urls
                  (map (fun category => (category, @nil url_data))
                       (Py.dict_keys (categories self))) = Ok dict
             /\ write_categories env self dict [] = completed cats
             /\ fs = (cats ++ [("sitemap.xml", index_document self)])%list).
Proof.
  unfold split_sitemap.
  destruct (parse_existing_sitemap self input) as [urls|]; [|discriminate].
  intros H. exists urls. split; [reflexivity|].
  destruct urls as [|u0 urls0]; [injection H as <-; left; now split|].
  destruct (categorize_all self (u0 :: urls0) _) as [dict|] eqn:Ed;
    [|discriminate].
  apply and_then_completed_inv in H. destruct H as (cats & Hw & H).
  apply write_file_completed in H. destruct H as [_ ->].
  right. exists dict, cats. split; [discriminate|]. now split.
Qed.

End SplitterProofs.

(** ** The runs *)

Module PipelineProofs.
Import DictFacts SortFacts RunFacts GeneratorProofs SplitterProofs.

(** *** The index *)

(** C5. The index of the splitter names sitemaps the run did not write:
    fed a sitemap that has the home page only, on a file system that
    accepts every file, the run writes the main sitemap and the index,
    and the index has an entry for the finance sitemap, of which there is
    no file. *)
Theorem splitter_index_lists_unwritten_sitemaps :
  exists fs doc,
    SitemapSplitter.split_sitemap Examples.obliging Examples.splitter
      Examples.home_only = completed fs
    /\ map fst fs = ["sitemap-main.xml"; "sitemap.xml"]
    /\ Py.dict_get "sitemap.xml" fs = Some doc
    /\ In (Elem "sitemap" [] None
             [ Elem "loc" [] (Some "https://dapsiwow.com/sitemap-finance.xml")
                 [];
               Elem "lastmod" [] (Some "2024-01-01") [] ])
          (children doc)
    /\ Py.dict_get "sitemap-finance.xml" fs = None.
Proof.
  eexists. eexists.
  split; [vm_compute; reflexivity|].
  split; [reflexivity|].
  split; [reflexivity|].
  split; [|reflexivity].
  right. left. reflexivity.
Qed.

(** *** The order of the entries *)

(** C6, as worded, fails on the splitter: the same two finance URLs in
    the two orders give two different finance sitemaps. *)
Lemma splitter_keeps_input_order :
  exists fs1 fs2,
    SitemapSplitter.split_sitemap Examples.obliging Examples.splitter
      Examples.loan_then_tax = completed fs1
    /\ SitemapSplitter.split_sitemap Examples.obliging Examples.splitter
         Examples.tax_then_loan = completed fs2
    /\ Py.dict_get "sitemap-finance.xml" fs1
       <> Py.dict_get "sitemap-finance.xml" fs2.
Proof.
  eexists. eexists.
  split; [vm_compute; reflexivity|].
  split; [vm_compute; reflexivity|].
  vm_compute. discriminate.
Qed.

(** C6, amended. The catalogue-driven generator sorts the tools of every
    category by display name with a stable sort: a group is sorted, has
    the tools of its category, keeps the tools of one name in the order
    of the catalogue, and is the same for two orderings of the catalogue
    when the display names within the category are pairwise different.
    The splitter does not sort: a group has the records of its category
    in the order of the input. The [url] entries of a sitemap follow the
    order of the group. *)
Theorem group_order :
  (forall tools1 tools2 c,
      Permutation tools1 tools2 ->
      NoDup (map ToolsSitemapGenerator.name
               (filter (ToolsSitemapGenerator.of_category c) tools1)) ->
      Py.dict_get c (ToolsSitemapGenerator.group_tools_by_category tools1)
      = Py.dict_get c (ToolsSitemapGenerator.group_tools_by_category tools2))
  /\ (forall tools c l,
         Py.dict_get c (ToolsSitemapGenerator.group_tools_by_category tools)
         = Some l ->
         Sorted (Py.key_le ToolsSitemapGenerator.name) l
         /\ Permutation l (filter (ToolsSitemapGenerator.of_category c) tools)
         /\ forall n,
              filter (fun tool =>
                        String.eqb (ToolsSitemapGenerator.name tool) n) l
              = filter (fun tool =>
                          String.eqb (ToolsSitemapGenerator.name tool) n)
                       (filter (ToolsSitemapGenerator.of_category c) tools))
  /\ (forall self urls dict c,
         SitemapSplitter.categorize_all self urls
           (map (fun category => (category, []))
                (Py.dict_keys (SitemapSplitter.categories self))) = Ok dict ->
         In c (Py.dict_keys (SitemapSplitter.categories self)) ->
         Py.dict_get c dict
         = Some (filter (SitemapSplitter.in_category self c) urls))
  /\ (forall self l,
         children (ToolsSitemapGenerator.sitemap_document self l)
         = map (ToolsSitemapGenerator.tool_element self) l)
  /\ (forall urls,
         children (SitemapSplitter.sitemap_document urls)
         = map SitemapSplitter.url_element urls).
Proof.
  split; [|split; [|split; [|split]]].
  - intros tools1 tools2 c Hp Hnd. rewrite !group_get.
    pose proof (sorted_filter_perm ToolsSitemapGenerator.name
                  (ToolsSitemapGenerator.of_category c) _ _ Hp Hnd) as Hs.
    destruct (filter (ToolsSitemapGenerator.of_category c) tools1)
      as [|x1 r1] eqn:E1,
      (filter (ToolsSitemapGenerator.of_category c) tools2) as [|x2 r2] eqn:E2.
    + reflexivity.
    + symmetry in Hs. apply (sorted_nil_inv _ (x2 :: r2)) in Hs. discriminate.
    + apply (sorted_nil_inv _ (x1 :: r1)) in Hs. discriminate.
    + now rewrite Hs.
  - intros tools c l. rewrite group_get.
    destruct (filter (ToolsSitemapGenerator.of_category c) tools) as [|x r];
      [discriminate|].
    intros [= <-].
    split; [apply (sorted_Sorted _ (x :: r))|].
    split; [apply (sorted_perm _ (x :: r))|].
    intros n. apply (sorted_stable _ n (x :: r)).
  - intros self urls dict c Hdict Hc.
    destruct (categorize_all_spec _ _ _ _ Hdict) as [_ Hget].
    rewrite Hget, empty_groups_get by exact Hc. reflexivity.
  - reflexivity.
  - reflexivity.
Qed.

Lemma group_order_witness :
  Py.dict_get "health"
    (ToolsSitemapGenerator.group_tools_by_category
       (map (ToolsSitemapGenerator.make_tool Examples.generator)
            [Examples.bmr; Examples.bmi; Examples.loan]))
  = Py.dict_get "health"
      (ToolsSitemapGenerator.group_tools_by_category
         (map (ToolsSitemapGenerator.make_tool Examples.generator)
              [Examples.bmi; Examples.bmr; Examples.loan])).
Proof.
  apply (proj1 group_order).
  - apply perm_swap.
  - vm_compute. repeat constructor; simpl; intuition discriminate.
Defined.

(** *** The empty input *)

(** C7, as worded, fails: on an empty collection neither script writes
    the main sitemap or an index. *)
Lemma empty_input_writes_no_main_sitemap :
  Py.dict_get "client/public/sitemap-main.xml"
    (files_written
       (ToolsSitemapGenerator.generate_sitemaps Examples.obliging
          Examples.generator (ToolsSitemapGenerator.ToolsData []))) = None
  /\ Py.dict_get "client/public/sitemap.xml"
       (files_written
          (ToolsSitemapGenerator.generate_sitemaps Examples.obliging
             Examples.generator (ToolsSitemapGenerator.ToolsData []))) = None
  /\ SitemapSplitter.split_sitemap Examples.obliging Examples.splitter
       Examples.empty_urlset = completed [].
Proof.
  split; [reflexivity|]. split; [reflexivity|]. vm_compute. reflexivity.
Qed.

(** C7, amended. When the collection of records is empty the run writes
    no file at all, no category sitemap, no main sitemap, no index, and
    does not raise, whatever the file system. *)
Theorem empty_input_writes_nothing :
  (forall env self src,
      ToolsSitemapGenerator.parse_tools_from_ts self src = Ok [] ->
      ToolsSitemapGenerator.generate_sitemaps env self src = completed [])
  /\ (forall env self input,
         SitemapSplitter.parse_existing_sitemap self input = Ok [] ->
         SitemapSplitter.split_sitemap env self input = completed []).
Proof.
  split.
  - intros env self src H.
    unfold ToolsSitemapGenerator.generate_sitemaps. now rewrite H.
  - intros env self input H. unfold SitemapSplitter.split_sitemap.
    now rewrite H.
Qed.

Lemma empty_input_writes_nothing_witness :
  ToolsSitemapGenerator.generate_sitemaps Examples.obliging Examples.generator
    ToolsSitemapGenerator.NoToolsData = completed []
  /\ SitemapSplitter.split_sitemap Examples.obliging Examples.splitter
       Examples.empty_urlset = completed [].
Proof.
  split.
  - apply (proj1 empty_input_writes_nothing). reflexivity.
  - apply (proj2 empty_input_writes_nothing). vm_compute. reflexivity.
Defined.

(** *** The input that cannot be parsed *)

(** C8. Only a [ParseError] is caught: on an input on which [ET.parse]
    raises another exception, an unknown encoding in the XML declaration
    for one, the exception leaves [parse_existing_sitemap] and the run,
    which has written no file, where a [ParseError] gives the example
    records. *)
Theorem unreadable_input_propagates (env : file_system)
  (self : SitemapSplitter.t) (e : exn) :
  SitemapSplitter.parse_existing_sitemap self (SitemapSplitter.Unreadable e)
  = Raise e
  /\ SitemapSplitter.split_sitemap env self (SitemapSplitter.Unreadable e)
     = failed [] e
  /\ SitemapSplitter.parse_existing_sitemap self SitemapSplitter.Malformed
     = Ok (SitemapSplitter.create_example_urls self).
Proof.
  split; [reflexivity|].
  split; reflexivity.
Qed.

(** *** The entries of the catalogue-driven generator *)

(** C10. Whatever the file system lets the run write, every file of the
    run is the main sitemap, the index, or the sitemap of a category, in
    which every tool of the category has its [url] entry and every entry
    is the entry of a tool of the category: the location of the tool,
    the date of the run as [lastmod], [weekly] as [changefreq] and [0.8]
    as [priority]. A run that does not raise has written the sitemap of
    the category of every tool. *)
Theorem catalogue_entries_constant
  (env : file_system) (self : ToolsSitemapGenerator.t)
  (src : ToolsSitemapGenerator.tools_source)
  (tools : list ToolsSitemapGenerator.tool) :
  ToolsSitemapGenerator.parse_tools_from_ts self src = Ok tools ->
  (forall name doc,
      In (name, doc)
         (files_written (ToolsSitemapGenerator.generate_sitemaps env self src)) ->
      (name, doc)
      = (Py.path_join (ToolsSitemapGenerator.output_dir self)
           "sitemap-main.xml",
         ToolsSitemapGenerator.main_document self)
      \/ (name, doc)
         = (Py.path_join (ToolsSitemapGenerator.output_dir self) "sitemap.xml",
            ToolsSitemapGenerator.index_document self
              (Py.dict_keys
                 (ToolsSitemapGenerator.group_tools_by_category tools)))
      \/ exists c,
          name = ToolsSitemapGenerator.category_file self c
          /\ (forall tool,
                 In tool tools -> ToolsSitemapGenerator.category tool = c ->
                 In (Elem "url" [] None
                       [ Elem "loc" []
                           (Some (ToolsSitemapGenerator.url tool)) [];
                         Elem "lastmod" []
                           (Some (ToolsSitemapGenerator.current_date self)) [];
                         Elem "changefreq" [] (Some "weekly") [];
                         Elem "priority" [] (Some "0.8") [] ])
                    (children doc))
          /\ forall e,
               In e (children doc) ->
               exists tool,
                 In tool tools /\ ToolsSitemapGenerator.category tool = c
                 /\ e = Elem "url" [] None
                          [ Elem "loc" []
                              (Some (ToolsSitemapGenerator.url tool)) [];
                            Elem "lastmod" []
                              (Some (ToolsSitemapGenerator.current_date self))
                              [];
                            Elem "changefreq" [] (Some "weekly") [];
                            Elem "priority" [] (Some "0.8") [] ])
  /\ (exception (ToolsSitemapGenerator.generate_sitemaps env self src) = None ->
      forall tool,
        In tool tools ->
        exists doc,
          In (ToolsSitemapGenerator.category_file self
                (ToolsSitemapGenerator.category tool), doc)
             (files_written
                (ToolsSitemapGenerator.generate_sitemaps env self src))
          /\ In (Elem "url" [] None
                   [ Elem "loc" [] (Some (ToolsSitemapGenerator.url tool)) [];
                     Elem "lastmod" []
                       (Some (ToolsSitemapGenerator.current_date self)) [];
                     Elem "changefreq" [] (Some "weekly") [];
                     Elem "priority" [] (Some "0.8") [] ])
                (children doc)).
Proof.
  intros Hparse.
  destruct (generate_sitemaps_written env self src tools Hparse)
    as (k & tail & Hw & Htail & Hfull).
  rewrite Hw. split.
  - intros name doc Hin. apply in_app_or in Hin. destruct Hin as [Hin|Hin].
    + right. right. apply in_map_iff in Hin.
      destruct Hin as ([c l] & [= <- <-] & Hin).
      apply firstn_incl in Hin. destruct (group_entry _ _ _ Hin) as [-> _].
      exists c. split; [reflexivity|]. cbn [fst snd children
        ToolsSitemapGenerator.sitemap_document]. split.
      * intros tool Ht Hc.
        apply (in_map (ToolsSitemapGenerator.tool_element self)).
        apply sorted_In, filter_In. split; [exact Ht|].
        now apply String.eqb_eq.
      * intros e He. apply in_map_iff in He. destruct He as (x & <- & Hx).
        apply sorted_In, filter_In in Hx. destruct Hx as [Hx Hc].
        exists x. split; [exact Hx|]. split; [|reflexivity].
        now apply String.eqb_eq.
    + destruct Htail as [-> | [-> | ->]].
      * contradiction.
      * destruct Hin as [<-|[]]. now left.
      * destruct Hin as [<-|[<-|[]]]; [now left|right; now left].
  - intros He tool Ht.
    destruct (Hfull He) as [Hk _]; [intros ->; contradiction|].
    rewrite Hk.
    destruct (tool_in_category_file self tools tool Ht) as [Hfile Hmem].
    eexists. split; [apply in_or_app; left; exact Hfile|].
    cbn [children ToolsSitemapGenerator.sitemap_document].
    exact (in_map (ToolsSitemapGenerator.tool_element self) _ _ Hmem).
Qed.

Lemma catalogue_entries_constant_witness :
  exists doc,
    In ("client/public/sitemap-health.xml", doc)
       (files_written
          (ToolsSitemapGenerator.generate_sitemaps Examples.obliging
             Examples.generator
             (ToolsSitemapGenerator.ToolsData [Examples.bmi; Examples.loan])))
    /\ In (Elem "url" [] None
             [ Elem "loc" [] (Some "https://dapsiwow.com/tools/bmi-calculator")
                 [];
               Elem "lastmod" [] (Some "2024-01-01") [];
               Elem "changefreq" [] (Some "weekly") [];
               Elem "priority" [] (Some "0.8") [] ])
          (children doc).
Proof.
  apply (proj2 (catalogue_entries_constant Examples.obliging Examples.generator
                  (ToolsSitemapGenerator.ToolsData
                     [Examples.bmi; Examples.loan])
                  _ eq_refl) eq_refl
           (ToolsSitemapGenerator.make_tool Examples.generator Examples.bmi)).
  left. reflexivity.
Defined.

End PipelineProofs.

(** ** Writing a sitemap and reading it back *)

Module RoundTripProofs.
Import SitemapSplitter.

Lemma plain_text_newlines s :
  ET.plain_text s = true -> ET.normalize_newlines s = s.
Proof.
  induction s as [|c s IH]; [reflexivity|].
  cbn [ET.plain_text ET.normalize_newlines]. intros H.
  apply andb_true_iff in H. destruct H as [H Hs].
  apply andb_true_iff in H. destruct H as [_ Hc].
  apply negb_true_iff in Hc. rewrite Hc, (IH Hs). reflexivity.
Qed.

Lemma plain_text_xml s : ET.plain_text s = true -> ET.xml_text_ok s = true.
Proof.
  induction s as [|c s IH]; [reflexivity|].
  cbn [ET.plain_text ET.xml_text_ok]. intros H.
  apply andb_true_iff in H. destruct H as [H Hs].
  apply andb_true_iff in H. destruct H as [Hc _].
  now rewrite Hc, (IH Hs).
Qed.

(** A preserved text is read as it was written. *)
Lemma read_text_preserved s :
  ET.text_preserved s = true -> ET.read_text (Some s) = Some (Some s).
Proof.
  unfold ET.text_preserved. intros H.
  apply andb_true_iff in H. destruct H as [Hne Hp].
  destruct s as [|c s]; [discriminate|].
  unfold ET.read_text.
  now rewrite (plain_text_xml _ Hp), (plain_text_newlines _ Hp).
Qed.

Lemma read_field_preserved x :
  field_preserved x = true -> ET.read_text x = Some x.
Proof.
  destruct x as [s|]; [|discriminate]. apply read_text_preserved.
Qed.

(** A [url] element as the parser returns it. *)
Lemma read_back_url ns u :
  record_preserved u = true ->
  ET.read_back ns (url_element u)
  = Some (Elem (ET.qualify ns "url") [] None
            [ Elem (ET.qualify ns "loc") [] (fst (fst (fst u))) [];
              Elem (ET.qualify ns "lastmod") [] (snd (fst (fst u))) [];
              Elem (ET.qualify ns "changefreq") [] (snd (fst u)) [];
              Elem (ET.qualify ns "priority") [] (snd u) [] ]).
Proof.
  destruct u as [[[url lastmod] changefreq] priority].
  unfold record_preserved. intros H.
  apply andb_true_iff in H. destruct H as [H Hp].
  apply andb_true_iff in H. destruct H as [H Hc].
  apply andb_true_iff in H. destruct H as [Hu Hl].
  cbn [url_element ET.read_back Py.dict_get ET.remove_key map ET.sequence
       fst snd].
  rewrite (read_field_preserved _ Hu), (read_field_preserved _ Hl),
    (read_field_preserved _ Hc), (read_field_preserved _ Hp).
  reflexivity.
Qed.

Lemma read_back_urls ns urls :
  forallb record_preserved urls = true ->
  ET.sequence (map (ET.read_back ns) (map url_element urls))
  = Some (map (fun u =>
                 Elem (ET.qualify ns "url") [] None
                   [ Elem (ET.qualify ns "loc") [] (fst (fst (fst u))) [];
                     Elem (ET.qualify ns "lastmod") [] (snd (fst (fst u))) [];
                     Elem (ET.qualify ns "changefreq") [] (snd (fst u)) [];
                     Elem (ET.qualify ns "priority") [] (snd u) [] ])
              urls).
Proof.
  induction urls as [|u urls IH]; [reflexivity|].
  cbn [forallb map ET.sequence]. intros H.
  apply andb_true_iff in H. destruct H as [Hu Hs].
  now rewrite (read_back_url ns u Hu), (IH Hs).
Qed.

(** Reading the records off the parsed [url] elements. *)
Lemma read_parsed_urls self urls :
  flat_map (read_url self sitemap_ns)
    (filter (fun e => ET.tag_matches sitemap_ns "url" (tag e))
       (flat_map ET.iter
          (map (fun u =>
                  Elem (ET.qualify sitemap_ns "url") [] None
                    [ Elem (ET.qualify sitemap_ns "loc") []
                        (fst (fst (fst u))) [];
                      Elem (ET.qualify sitemap_ns "lastmod") []
                        (snd (fst (fst u))) [];
                      Elem (ET.qualify sitemap_ns "changefreq") []
                        (snd (fst u)) [];
                      Elem (ET.qualify sitemap_ns "priority") []
                        (snd u) [] ])
               urls)))
  = urls.
Proof.
  induction urls as [|[[[url lastmod] changefreq] priority] urls IH];
    [reflexivity|].
  cbn [map flat_map]. rewrite filter_app, flat_map_app, IH.
  reflexivity.
Qed.

(** C9, as worded, fails: a field that is the empty string is written as
    an empty element and is read back as [None]. *)
Lemma empty_field_is_not_read_back :
  parse_existing_sitemap Examples.splitter
    (written (sitemap_document [ mk_url "" "2024-01-01" "weekly" "0.8" ]))
  = Ok [ (None, Some "2024-01-01", Some "weekly", Some "0.8") ]
  /\ parse_existing_sitemap Examples.splitter
       (written (sitemap_document [ mk_url "" "2024-01-01" "weekly" "0.8" ]))
     <> Ok [ mk_url "" "2024-01-01" "weekly" "0.8" ].
Proof.
  split; [vm_compute; reflexivity|]. vm_compute. discriminate.
Qed.

(** C9, amended. For every list of records whose four fields are texts
    that are not empty and have only XML characters and no carriage
    return, the sitemap built from the list, once written, is parsed back
    to the same records, in the same order. *)
Theorem sitemap_round_trip (self : t) (urls : list url_data) :
  forallb record_preserved urls = true ->
  parse_existing_sitemap self (written (sitemap_document urls)) = Ok urls.
Proof.
  intros H. unfold written, sitemap_document.
  cbn [ET.read_back Py.dict_get String.eqb Ascii.eqb Bool.eqb ET.read_text].
  rewrite (read_back_urls sitemap_ns urls H).
  cbn [parse_existing_sitemap].
  change (namespace_of _) with sitemap_ns.
  unfold ET.findall_descendants. cbn [ET.iter tl].
  f_equal. apply read_parsed_urls.
Qed.

Lemma sitemap_round_trip_witness :
  parse_existing_sitemap Examples.splitter
    (written
       (sitemap_document
          [ mk_url "https://dapsiwow.com/" "2024-01-01" "daily" "1.0";
            mk_url "https://dapsiwow.com/tools/merge-pdf" "2024-01-01"
                   "weekly" "0.8" ]))
  = Ok [ mk_url "https://dapsiwow.com/" "2024-01-01" "daily" "1.0";
         mk_url "https://dapsiwow.com/tools/merge-pdf" "2024-01-01"
                "weekly" "0.8" ].
Proof.
  apply (sitemap_round_trip Examples.splitter). vm_compute. reflexivity.
Defined.

End RoundTripProofs.

(** ** Further properties of the categoriser *)

Module CategorizerFurther.
Import SitemapSplitter CategorizerProofs.

Lemma match_here_star a p s :
  Re.match_here (Re.TStar a :: p) s
  = Re.match_here p s
    || match s with
       | EmptyString => false
       | String c s' => Re.atom_ok a c && Re.match_here (Re.TStar a :: p) s'
       end.
Proof. destruct s; reflexivity. Qed.

(** A match of a [$]-free token list at the front of [s] is a match at
    the front of every extension of [s]. *)
Lemma match_here_app p s t :
  Further.end_free p = true ->
  Re.match_here p s = true -> Re.match_here p (s ++ t) = true.
Proof.
  revert s. induction p as [|[a|a|] p IH]; intros s Hp H.
  - reflexivity.
  - destruct s as [|c s]; [discriminate|].
    cbn [Re.match_here append] in *.
    apply andb_true_iff in H. destruct H as [-> H]. now apply IH.
  - assert (Hp' : Further.end_free p = true) by exact Hp.
    induction s as [|c s IHs].
    + rewrite match_here_star in H. rewrite orb_false_r in H.
      rewrite match_here_star. apply orb_true_iff. left.
      now apply (IH "").
    + change (String c s ++ t) with (String c (s ++ t)).
      rewrite match_here_star in H. rewrite match_here_star.
      apply orb_true_iff in H. apply orb_true_iff. destruct H as [H|H].
      * left. now apply (IH (String c s)).
      * right. apply andb_true_iff in H. destruct H as [Hc H].
        rewrite Hc. now apply IHs.
  - discriminate.
Qed.

Lemma search_tokens_unfold p s :
  Re.search_tokens p s
  = Re.match_here p s
    || match s with
       | EmptyString => false
       | String _ s' => Re.search_tokens p s'
       end.
Proof. destruct s; reflexivity. Qed.

Lemma search_tokens_app_r p s t :
  Further.end_free p = true ->
  Re.search_tokens p s = true -> Re.search_tokens p (s ++ t) = true.
Proof.
  intros Hp. induction s as [|c s IH]; intros H.
  - rewrite search_tokens_unfold in H. rewrite orb_false_r in H.
    rewrite search_tokens_unfold. apply orb_true_iff. left.
    now apply (match_here_app p "").
  - change (String c s ++ t) with (String c (s ++ t)).
    rewrite search_tokens_unfold in H. rewrite search_tokens_unfold.
    apply orb_true_iff in H. apply orb_true_iff. destruct H as [H|H].
    + left. now apply (match_here_app p (String c s)).
    + right. now apply IH.
Qed.

Lemma search_tokens_app_l p pre s :
  Re.search_tokens p s = true -> Re.search_tokens p (pre ++ s) = true.
Proof.
  intros H. induction pre as [|c pre IH]; [exact H|].
  change (String c pre ++ s) with (String c (pre ++ s)).
  rewrite search_tokens_unfold, IH. apply orb_true_r.
Qed.

(** A category without [$] in its patterns that matches a path matches
    every path the first one occurs in. *)
Lemma entry_matches_extension entry pre s post :
  Further.unanchored entry = true ->
  entry_matches s entry = true ->
  entry_matches (pre ++ s ++ post) entry = true.
Proof.
  unfold Further.unanchored, entry_matches. intros Hu H.
  apply any_pattern_true in H. destruct H as (p & Hin & Hp).
  apply any_pattern_true. exists p. split; [exact Hin|].
  rewrite forallb_forall in Hu. unfold Re.search in *.
  apply search_tokens_app_l, search_tokens_app_r; auto.
Qed.

(** Only the patterns of ['main'] are anchored. *)
Lemma default_categories_unanchored entry :
  In entry default_categories -> fst entry <> "main" ->
  Further.unanchored entry = true.
Proof.
  intros Hin Hne.
  assert (H : forallb (fun e => String.eqb (fst e) "main"
                                || Further.unanchored e)
                      default_categories = true) by (vm_compute; reflexivity).
  rewrite forallb_forall in H. specialize (H _ Hin).
  apply orb_true_iff in H. destruct H as [H|H]; [|exact H].
  apply String.eqb_eq in H. contradiction.
Qed.

(** X1. Text added around the path of a URL can move the URL to a category
    declared earlier, never to a later one and never to ['main']: when a
    URL is put in a category other than ['main'], every URL whose path
    contains the path of the first is put in that category or in one
    declared before it. *)
Theorem categorize_url_extension
  (input_file base_url now url1 url2 pre post c1 : string) :
  extract_path (init input_file base_url now) url2
  = pre ++ extract_path (init input_file base_url now) url1 ++ post ->
  categorize_url (init input_file base_url now) url1 = Ok c1 ->
  c1 <> "main" ->
  exists before c2 data after,
    default_categories = (before ++ (c2, data) :: after)%list
    /\ categorize_url (init input_file base_url now) url2 = Ok c2
    /\ c2 <> "main"
    /\ In c1 (c2 :: map fst after).
Proof.
  intros Hpath H1 Hne. rewrite categorize_url_scan in *.
  set (self := init input_file base_url now) in *.
  destruct (scan_categories default_categories (extract_path self url1))
    as [c|] eqn:E1; [|congruence].
  injection H1 as ->.
  destruct (scan_categories_Some _ _ _ E1)
    as (b1 & d1 & a1 & Hsplit1 & _ & Hm1 & _).
  assert (Hin1 : In (c1, d1) default_categories).
  { rewrite Hsplit1. apply in_or_app. right. now left. }
  assert (Hm2 : entry_matches (extract_path self url2) (c1, d1) = true).
  { rewrite Hpath. apply entry_matches_extension; [|exact Hm1].
    now apply default_categories_unanchored. }
  destruct (scan_categories default_categories (extract_path self url2))
    as [c2|] eqn:E2.
  - destruct (scan_categories_Some _ _ _ E2)
      as (b2 & d2 & a2 & Hsplit2 & Hc2 & _ & Hb2).
    exists b2, c2, d2, a2. split; [exact Hsplit2|]. split; [reflexivity|].
    split; [now apply String.eqb_neq|].
    rewrite Hsplit2 in Hin1. apply in_app_or in Hin1.
    destruct Hin1 as [Hin|[Heq|Hin]].
    + exfalso. rewrite forallb_forall in Hb2. specialize (Hb2 _ Hin).
      unfold passed_over in Hb2. rewrite Hm2 in Hb2. cbn [fst negb] in Hb2.
      rewrite orb_false_r in Hb2. apply String.eqb_eq in Hb2. contradiction.
    + left. congruence.
    + right. change c1 with (fst (c1, d1)). now apply in_map.
  - exfalso. apply scan_categories_None in E2.
    rewrite forallb_forall in E2. specialize (E2 _ Hin1).
    unfold passed_over in E2. rewrite Hm2 in E2. cbn [fst negb] in E2.
    rewrite orb_false_r in E2. apply String.eqb_eq in E2. contradiction.
Qed.

Lemma categorize_url_extension_witness :
  exists before c2 data after,
    default_categories = (before ++ (c2, data) :: after)%list
    /\ categorize_url Examples.splitter
         "https://dapsiwow.com/tools/word-counter-merge-pdf" = Ok c2
    /\ c2 <> "main"
    /\ In "text" (c2 :: map fst after).
Proof.
  apply (categorize_url_extension "sitemap.xml" "https://dapsiwow.com"
           "2024-01-01" "https://dapsiwow.com/tools/word-counter"
           "https://dapsiwow.com/tools/word-counter-merge-pdf"
           "" "-merge-pdf" "text").
  - vm_compute. reflexivity.
  - vm_compute. reflexivity.
  - discriminate.
Defined.

End CategorizerFurther.

(** ** Further properties of the splitter *)

Module SplitterFurther.
Import SitemapSplitter DictFacts CategorizerProofs RunFacts SplitterProofs.

(** *** Records without a URL *)

Lemma categorize_all_raises input_file base_url now urls acc :
  (forall c, In c (Py.dict_keys default_categories) ->
             In c (Py.dict_keys acc)) ->
  (exists u, In u urls /\ url_of u = None) ->
  categorize_all (init input_file base_url now) urls acc
  = Raise AttributeError.
Proof.
  revert acc. induction urls as [|u rest IH]; intros acc Hk (x & Hin & Hx).
  - contradiction.
  - cbn [categorize_all].
    destruct (url_of u) as [url|] eqn:Eu; [|reflexivity].
    destruct (categorize_url_in_keys input_file base_url now url)
      as (cat & -> & Hcat).
    cbn [bind].
    destruct (dict_append_ok cat u acc (Hk _ Hcat)) as [acc' Ea].
    rewrite Ea. cbn [bind]. apply IH.
    + intros c Hc. rewrite (proj1 (dict_append_spec _ _ _ _ Ea)). auto.
    + exists x. split; [|exact Hx].
      destruct Hin as [->|Hin]; [congruence|exact Hin].
Qed.

(** X2. A record without a URL, read from a [loc] element without text,
    stops the run: the categoriser raises an [AttributeError] on it,
    before any file is written. *)
Theorem split_sitemap_raises (env : file_system)
  (input_file base_url now : string) (input : input_state)
  (urls : list url_data) :
  parse_existing_sitemap (init input_file base_url now) input = Ok urls ->
  (exists u, In u urls /\ url_of u = None) ->
  split_sitemap env (init input_file base_url now) input
  = failed [] AttributeError.
Proof.
  intros Hparse Hex. unfold split_sitemap. rewrite Hparse.
  destruct urls as [|u0 urls0].
  - destruct Hex as (u & [] & _).
  - rewrite categorize_all_raises; [reflexivity| |exact Hex].
    intros c Hc. now rewrite empty_groups_keys.
Qed.

Lemma split_sitemap_raises_witness :
  split_sitemap Examples.obliging Examples.splitter Further.empty_loc_sitemap
  = failed [] AttributeError.
Proof.
  eapply (split_sitemap_raises Examples.obliging "sitemap.xml"
            "https://dapsiwow.com" "2024-01-01" Further.empty_loc_sitemap).
  - vm_compute. reflexivity.
  - eexists. split; [right; left; reflexivity|reflexivity].
Defined.

(** *** Every record is written once *)

Lemma dict_append_perm k u d d' :
  dict_append k u d = Ok d' ->
  Permutation (flat_map snd d') (flat_map snd d ++ [u])%list.
Proof.
  revert d'. induction d as [|[k' l] d IH]; simpl; intros d' H; [discriminate|].
  destruct (String.eqb k k').
  - injection H as <-. simpl. rewrite <- !app_assoc.
    apply Permutation_app_head. apply Permutation_app_comm.
  - destruct (dict_append k u d) as [d''|]; simpl in H; [|discriminate].
    injection H as <-. simpl. rewrite <- app_assoc.
    apply Permutation_app_head. now apply IH.
Qed.

Lemma categorize_all_perm self urls acc dict :
  categorize_all self urls acc = Ok dict ->
  Permutation (flat_map snd dict) (flat_map snd acc ++ urls)%list.
Proof.
  revert acc. induction urls as [|u rest IH]; intros acc H.
  - injection H as <-. now rewrite app_nil_r.
  - cbn [categorize_all] in H.
    destruct (url_of u); [|discriminate].
    destruct (categorize_url self s) as [cat|]; [|discriminate].
    cbn [bind] in H.
    destruct (dict_append cat u acc) as [acc'|] eqn:Ea; [|discriminate].
    cbn [bind] in H. rewrite (IH _ H).
    rewrite (dict_append_perm _ _ _ _ Ea), <- app_assoc. reflexivity.
Qed.

Lemma entries_app fs1 fs2 :
  Further.entries (fs1 ++ fs2)%list
  = (Further.entries fs1 ++ Further.entries fs2)%list.
Proof. unfold Further.entries. apply flat_map_app. Qed.

Lemma write_categories_entries env self d fs fs' :
  write_categories env self d fs = completed fs' ->
  Further.entries fs'
  = (Further.entries fs ++ map url_element (flat_map snd d))%list.
Proof.
  revert fs. induction d as [|[c urls] d IH]; intros fs H.
  - injection H as <-. simpl. now rewrite app_nil_r.
  - cbn [write_categories] in H. destruct urls as [|u urls].
    + now apply IH.
    + destruct (Py.dict_get c (categories self)) as [data|]; [|discriminate].
      apply and_then_completed_inv in H. destruct H as (fs0 & Hw & H).
      apply write_file_completed in Hw. destruct Hw as [_ ->].
      rewrite (IH _ H).
      rewrite entries_app. cbn [flat_map snd]. rewrite map_app, <- app_assoc.
      f_equal. unfold Further.entries. cbn. now rewrite app_nil_r.
Qed.

Lemma empty_groups_flat (keys : list string) :
  flat_map snd (map (fun category => (category, @nil url_data)) keys) = [].
Proof. induction keys; [reflexivity|exact IHkeys]. Qed.

(** X3. No record is lost and none is written twice: the [url] entries
    of the files a run that completes writes before the index are, up to
    their order, the entries of the records it read. *)
Theorem split_sitemap_writes_every_record (env : file_system) (self : t)
  (input : input_state) (fs : files) :
  split_sitemap env self input = completed fs ->
  exists urls,
    parse_existing_sitemap self input = Ok urls
    /\ Permutation (Further.entries (removelast fs)) (map url_element urls).
Proof.
  intros H. apply split_sitemap_completed in H.
  destruct H as (urls & Hparse & H). exists urls. split; [exact Hparse|].
  destruct H as [[-> ->]|(dict & cats & _ & Ed & Ew & ->)]; [reflexivity|].
  rewrite removelast_last, (write_categories_entries _ _ _ _ _ Ew).
  cbn [Further.entries flat_map app]. apply Permutation_map.
  rewrite (categorize_all_perm _ _ _ _ Ed), empty_groups_flat. reflexivity.
Qed.

Lemma split_sitemap_writes_every_record_witness :
  exists fs,
    split_sitemap Examples.obliging Examples.splitter Examples.loan_then_tax
    = completed fs
    /\ exists urls,
         parse_existing_sitemap Examples.splitter Examples.loan_then_tax
         = Ok urls
         /\ Permutation (Further.entries (removelast fs))
              (map url_element urls).
Proof.
  eexists. split; [vm_compute; reflexivity|].
  apply (split_sitemap_writes_every_record Examples.obliging).
  vm_compute. reflexivity.
Defined.

(** *** The files of a run *)

(** What a run that completes wrote: nothing, or the category sitemaps
    of a grouping under the configured keys and then the index. *)
Lemma split_sitemap_shape env input_file base_url now input fs :
  split_sitemap env (init input_file base_url now) input = completed fs ->
  fs = []
  \/ exists dict cats,
      Py.dict_keys dict = Py.dict_keys default_categories
      /\ write_categories env (init input_file base_url now) dict []
         = completed cats
      /\ fs = (cats ++ [("sitemap.xml",
                         index_document (init input_file base_url now))])%list.
Proof.
  intros H. apply split_sitemap_completed in H.
  destruct H as (urls & _ & [[_ ->]|(dict & cats & _ & Ed & Ew & ->)]);
    [now left|].
  right. exists dict, cats.
  split; [|split; [exact Ew|reflexivity]].
  rewrite (proj1 (categorize_all_spec _ _ _ _ Ed)).
  apply empty_groups_keys.
Qed.

Lemma write_categories_listed env input_file base_url now dict cats name doc :
  write_categories env (init input_file base_url now) dict [] = completed cats ->
  In (name, doc) cats ->
  exists c urls data,
    In (c, data) default_categories /\ name = file data
    /\ urls <> [] /\ doc = sitemap_document urls.
Proof.
  intros Hw Hin.
  destruct (write_categories_spec _ _ _ _ _ Hw) as (fs' & E & _ & Hout).
  cbn [app] in E. subst fs'.
  destruct (Hout _ _ Hin) as (c & urls & data & _ & Hne & Hd & -> & ->).
  exists c, urls, data. repeat split; auto. now apply dict_get_In.
Qed.

(** X4. Every sitemap a run that completes writes has at least one
    [url] entry and is listed in the index the run writes after it. *)
Theorem written_sitemaps_are_indexed (env : file_system)
  (input_file base_url now : string) (input : input_state) (fs : files)
  (name : string) (doc : Element) :
  split_sitemap env (init input_file base_url now) input = completed fs ->
  In (name, doc) (removelast fs) ->
  children doc <> []
  /\ In (index_entry (base_url ++ "/" ++ name) now)
        (children (index_document (init input_file base_url now)))
  /\ last fs (name, doc)
     = ("sitemap.xml", index_document (init input_file base_url now)).
Proof.
  intros Hrun Hin.
  destruct (split_sitemap_shape _ _ _ _ _ _ Hrun)
    as [->|(dict & cats & Hk & Hw & ->)];
    [contradiction|].
  rewrite removelast_last in Hin. rewrite last_last.
  destruct (write_categories_listed _ _ _ _ _ _ _ _ Hw Hin)
    as (c & urls & data & Hd & -> & Hne & ->).
  split; [|split; [|reflexivity]].
  - cbn [children sitemap_document]. destruct urls; [congruence|discriminate].
  - cbn [children index_document categories init SitemapSplitter.base_url
         SitemapSplitter.current_date].
    unfold Py.dict_values. rewrite map_map.
    apply (in_map (fun e => index_entry (base_url ++ "/" ++ file (snd e)) now))
      in Hd.
    exact Hd.
Qed.

Lemma written_sitemaps_are_indexed_witness :
  exists doc,
    In ("sitemap-finance.xml", doc)
       (removelast
          (files_written
             (split_sitemap Examples.obliging Examples.splitter
                Examples.loan_then_tax)))
    /\ children doc <> []
    /\ In (index_entry ("https://dapsiwow.com" ++ "/" ++ "sitemap-finance.xml")
             "2024-01-01")
          (children (index_document Examples.splitter)).
Proof.
  eexists. split; [vm_compute; left; reflexivity|].
  refine ((fun H => conj (proj1 H) (proj1 (proj2 H)))
            (written_sitemaps_are_indexed Examples.obliging "sitemap.xml"
               "https://dapsiwow.com" "2024-01-01" Examples.loan_then_tax _
               "sitemap-finance.xml" _ _ _)).
  - vm_compute. reflexivity.
  - vm_compute. left. reflexivity.
Defined.

(** The names a grouping under the configured keys is written to. *)
Lemma write_categories_names env input_file base_url now dict cats :
  Py.dict_keys dict = Py.dict_keys default_categories ->
  write_categories env (init input_file base_url now) dict [] = completed cats ->
  NoDup (map fst cats) /\ ~ In "sitemap.xml" (map fst cats).
Proof.
  intros Hk Hw. apply write_categories_obliging in Hw.
  destruct dict as [|[k1 l1] dict]; [discriminate|].
  destruct dict as [|[k2 l2] dict]; [discriminate|].
  destruct dict as [|[k3 l3] dict]; [discriminate|].
  destruct dict as [|[k4 l4] dict]; [discriminate|].
  destruct dict as [|[k5 l5] dict]; [discriminate|].
  destruct dict as [|? dict]; [|discriminate].
  injection Hk as -> -> -> -> ->.
  destruct l1, l2, l3, l4, l5; cbn in Hw; injection Hw as <-;
    cbn [map fst app];
    (split; [repeat (constructor; [cbn [In]; intuition discriminate|]);
             constructor
            |cbn [In]; intuition discriminate]).
Qed.

(** X5. A run that completes never writes a file twice: the names of
    the files it writes are pairwise different, and each is the index
    [sitemap.xml] or the file of a configured category. *)
Theorem split_sitemap_file_names (env : file_system)
  (input_file base_url now : string) (input : input_state) (fs : files) :
  split_sitemap env (init input_file base_url now) input = completed fs ->
  NoDup (map fst fs)
  /\ forall name,
       In name (map fst fs) ->
       name = "sitemap.xml"
       \/ In name (map file (Py.dict_values default_categories)).
Proof.
  intros Hrun.
  destruct (split_sitemap_shape _ _ _ _ _ _ Hrun)
    as [->|(dict & cats & Hk & Hw & ->)].
  - split; [constructor|intros name []].
  - destruct (write_categories_names _ _ _ _ _ _ Hk Hw) as [Hnd Hnin].
    rewrite map_app. cbn [map fst]. split.
    + apply NoDup_app; [exact Hnd|repeat constructor; intros []|].
      intros x Hx [<-|[]]. contradiction.
    + intros name Hin. apply in_app_or in Hin. destruct Hin as [Hin|[<-|[]]].
      * right. apply in_map_iff in Hin. destruct Hin as ([n doc] & <- & Hin).
        destruct (write_categories_listed _ _ _ _ _ _ _ _ Hw Hin)
          as (c & urls & data & Hd & -> & _).
        cbn [fst]. apply in_map. unfold Py.dict_values.
        exact (in_map snd _ _ Hd).
      * now left.
Qed.

Lemma split_sitemap_file_names_witness :
  exists fs,
    split_sitemap Examples.obliging Examples.splitter Malformed = completed fs
    /\ NoDup (map fst fs)
    /\ forall name,
         In name (map fst fs) ->
         name = "sitemap.xml"
         \/ In name (map file (Py.dict_values default_categories)).
Proof.
  eexists. split; [vm_compute; reflexivity|].
  apply (split_sitemap_file_names Examples.obliging "sitemap.xml"
           "https://dapsiwow.com" "2024-01-01" Malformed).
  vm_compute. reflexivity.
Defined.

(** *** The run that completes *)



(** *** Documents the parser finds nothing in *)

Lemma filter_none {A : Type} (f : A -> bool) (l : list A) :
  (forall x, In x l -> f x = false) -> filter f l = [].
Proof.
  induction l as [|x l IH]; intros H; [reflexivity|].
  simpl. rewrite (H x (or_introl eq_refl)). apply IH.
  intros y Hy. apply H. now right.
Qed.

(** X6. A sitemap without the namespace declaration is read as empty: no
    tag of the parsed document is qualified, the parser looks for the
    qualified [url], finds no record, and the run writes nothing. *)
Theorem unqualified_sitemap_is_empty (env : file_system) (self : t)
  (root : Element) :
  forallb (fun e => negb (Py.startswith "{" (tag e))) (ET.iter root) = true ->
  parse_existing_sitemap self (Document root) = Ok []
  /\ split_sitemap env self (Document root) = completed [].
Proof.
  intros H.
  assert (Hp : parse_existing_sitemap self (Document root) = Ok []).
  { rewrite forallb_forall in H. cbn [parse_existing_sitemap].
    assert (Hroot : Py.startswith "{" (tag root) = false).
    { apply negb_true_iff. apply H. destruct root. now left. }
    unfold namespace_of. rewrite Hroot.
    unfold ET.findall_descendants. rewrite filter_none; [reflexivity|].
    intros e He. unfold ET.tag_matches. cbn [String.eqb sitemap_ns].
    apply String.eqb_neq. intros Htag.
    assert (Hin : In e (ET.iter root)).
    { destruct (ET.iter root); [contradiction|now right]. }
    specialize (H _ Hin). rewrite Htag in H. discriminate. }
  split; [exact Hp|]. unfold split_sitemap. now rewrite Hp.
Qed.

Lemma unqualified_sitemap_is_empty_witness :
  parse_existing_sitemap Examples.splitter Further.plain_sitemap = Ok []
  /\ split_sitemap Examples.obliging Examples.splitter Further.plain_sitemap
     = completed [].
Proof.
  apply (unqualified_sitemap_is_empty Examples.obliging Examples.splitter).
  reflexivity.
Defined.

Lemma xml_text_ok_app a b :
  ET.xml_text_ok (a ++ b) = ET.xml_text_ok a && ET.xml_text_ok b.
Proof.
  induction a as [|c a IH]; [reflexivity|].
  cbn [append ET.xml_text_ok]. now rewrite IH, andb_assoc.
Qed.

Lemma read_text_total s :
  ET.xml_text_ok s = true -> exists x, ET.read_text (Some s) = Some x.
Proof.
  intros H. destruct s as [|c s]; [now exists None|].
  unfold ET.read_text. rewrite H. eauto.
Qed.

(** An entry of the index as the parser returns it. *)
Lemma read_back_index_entry ns loc date :
  ET.xml_text_ok loc = true -> ET.xml_text_ok date = true ->
  exists x y,
    ET.read_back ns (index_entry loc date)
    = Some (Elem (ET.qualify ns "sitemap") [] None
              [ Elem (ET.qualify ns "loc") [] x [];
                Elem (ET.qualify ns "lastmod") [] y [] ]).
Proof.
  intros Hl Hd.
  destruct (read_text_total _ Hl) as [x Hx].
  destruct (read_text_total _ Hd) as [y Hy].
  exists x, y. unfold index_entry, leaf.
  cbn [ET.read_back Py.dict_get ET.remove_key map ET.sequence ET.read_text].
  unfold ET.read_text in Hx, Hy. rewrite Hx, Hy. reflexivity.
Qed.

(** X7. The index is written to [sitemap.xml], the default input. A run
    that reads an index the splitter wrote finds no record in it and
    writes nothing. *)
Theorem own_index_is_read_as_empty (env : file_system) (self : t)
  (input_file base_url now : string) :
  ET.xml_text_ok base_url = true ->
  ET.xml_text_ok now = true ->
  parse_existing_sitemap self
    (written (index_document (init input_file base_url now))) = Ok []
  /\ split_sitemap env self
       (written (index_document (init input_file base_url now)))
     = completed [].
Proof.
  intros Hb Hd.
  assert (Hloc : forall name,
             ET.xml_text_ok name = true ->
             ET.xml_text_ok (base_url ++ "/" ++ name) = true).
  { intros name Hn. rewrite xml_text_ok_app, Hb.
    cbn [append ET.xml_text_ok]. now rewrite Hn. }
  assert (Hp : parse_existing_sitemap self
                 (written (index_document (init input_file base_url now)))
               = Ok []).
  { unfold written, index_document.
    cbn [categories init SitemapSplitter.base_url SitemapSplitter.current_date
         default_categories
         Py.dict_values map snd file].
    cbn [ET.read_back Py.dict_get String.eqb Ascii.eqb Bool.eqb ET.read_text
         map ET.sequence].
    destruct (read_back_index_entry sitemap_ns
                (base_url ++ "/" ++ "sitemap-main.xml") now) as (x1 & y1 & ->);
      [now apply Hloc|exact Hd|].
    destruct (read_back_index_entry sitemap_ns
                (base_url ++ "/" ++ "sitemap-finance.xml") now)
      as (x2 & y2 & ->); [now apply Hloc|exact Hd|].
    destruct (read_back_index_entry sitemap_ns
                (base_url ++ "/" ++ "sitemap-health.xml") now)
      as (x3 & y3 & ->); [now apply Hloc|exact Hd|].
    destruct (read_back_index_entry sitemap_ns
                (base_url ++ "/" ++ "sitemap-pdf.xml") now)
      as (x4 & y4 & ->); [now apply Hloc|exact Hd|].
    destruct (read_back_index_entry sitemap_ns
                (base_url ++ "/" ++ "sitemap-text.xml") now)
      as (x5 & y5 & ->); [now apply Hloc|exact Hd|].
    reflexivity. }
  split; [exact Hp|]. unfold split_sitemap. now rewrite Hp.
Qed.

Lemma own_index_is_read_as_empty_witness :
  parse_existing_sitemap Examples.splitter
    (written (index_document Examples.splitter)) = Ok []
  /\ split_sitemap Examples.obliging Examples.splitter
       (written (index_document Examples.splitter)) = completed [].
Proof.
  apply (own_index_is_read_as_empty Examples.obliging Examples.splitter
           "sitemap.xml" "https://dapsiwow.com" "2024-01-01"); reflexivity.
Defined.

End SplitterFurther.

(** ** Further properties of the catalogue-driven generator *)

Module GeneratorFurther.
Import ToolsSitemapGenerator DictFacts SortFacts RunFacts GeneratorProofs.

(** *** Every tool is written once *)

Lemma dict_set_append_perm k (tool : tool) d :
  Permutation
    (flat_map snd
       (Py.dict_set k
          (match Py.dict_get k d with Some l => l | None => [] end ++ [tool])%list
          d))
    (flat_map snd d ++ [tool])%list.
Proof.
  induction d as [|[k' l] d IH]; [reflexivity|].
  cbn [Py.dict_get Py.dict_set]. destruct (String.eqb k k').
  - cbn [flat_map snd]. rewrite <- !app_assoc.
    apply Permutation_app_head, Permutation_app_comm.
  - cbn [flat_map snd]. rewrite <- app_assoc.
    apply Permutation_app_head, IH.
Qed.

Lemma group_loop_perm tools acc :
  Permutation (flat_map snd (group_loop tools acc))
              (flat_map snd acc ++ tools)%list.
Proof.
  revert acc. induction tools as [|tool rest IH]; intros acc.
  - simpl. now rewrite app_nil_r.
  - cbn [group_loop]. rewrite IH, dict_set_append_perm, <- app_assoc.
    reflexivity.
Qed.

Lemma group_perm tools :
  Permutation (flat_map snd (group_tools_by_category tools)) tools.
Proof.
  unfold group_tools_by_category.
  transitivity (flat_map snd (group_loop tools [])); [|apply group_loop_perm].
  induction (group_loop tools []) as [|[c l] d IH]; [reflexivity|].
  cbn [map flat_map fst snd]. apply Permutation_app; [apply sorted_perm|exact IH].
Qed.

Lemma category_files_entries self d :
  Further.entries
    (map (fun e => (category_file self (fst e), sitemap_document self (snd e)))
         d)
  = map (tool_element self) (flat_map snd d).
Proof.
  induction d as [|[c l] d IH]; [reflexivity|].
  unfold Further.entries in *. cbn [map flat_map fst snd children sitemap_document].
  now rewrite IH, map_app.
Qed.

Lemma removelast_two {A : Type} (l : list A) (a b : A) :
  removelast (removelast (l ++ [a; b])) = l.
Proof.
  change (l ++ [a; b])%list with (l ++ [a] ++ [b])%list.
  now rewrite app_assoc, !removelast_last.
Qed.

(** X8. A run that does not raise loses no tool and writes none twice:
    the [url] entries of its category sitemaps, the files written
    before the main sitemap and the index, are, up to their order, the
    entries of the tools parsed from the catalogue. *)
Theorem generate_sitemaps_writes_every_tool (env : file_system) (self : t)
  (src : tools_source) (tools : list tool) :
  parse_tools_from_ts self src = Ok tools ->
  exception (generate_sitemaps env self src) = None ->
  Permutation
    (Further.entries
       (removelast (removelast (files_written (generate_sitemaps env self src)))))
    (map (tool_element self) tools).
Proof.
  intros Hparse He.
  destruct (generate_sitemaps_written env self src tools Hparse)
    as (k & tail & Hw & _ & Hfull).
  destruct tools as [|t0 ts].
  - unfold generate_sitemaps. rewrite Hparse. reflexivity.
  - destruct (Hfull He) as [Hk ->]; [discriminate|].
    rewrite Hw, Hk, removelast_two, category_files_entries.
    apply Permutation_map, group_perm.
Qed.

Lemma generate_sitemaps_writes_every_tool_witness :
  Permutation
    (Further.entries
       (removelast
          (removelast
             (files_written
                (generate_sitemaps Examples.obliging Examples.generator
                   (ToolsData [Examples.bmr; Examples.loan; Examples.bmi]))))))
    (map (tool_element Examples.generator)
       (map (make_tool Examples.generator)
          [Examples.bmr; Examples.loan; Examples.bmi])).
Proof.
  apply (generate_sitemaps_writes_every_tool Examples.obliging
           Examples.generator
           (ToolsData [Examples.bmr; Examples.loan; Examples.bmi]));
    reflexivity.
Defined.

(** *** The names of the files *)

Lemma append_inj_l p x y : p ++ x = p ++ y -> x = y.
Proof.
  induction p as [|c p IH]; [auto|]. intros [= H]. auto.
Qed.

Lemma length_append x y :
  String.length (x ++ y) = String.length x + String.length y.
Proof. induction x as [|c x IH]; simpl; [reflexivity|now rewrite IH]. Qed.

Lemma append_inj_r s x y : x ++ s = y ++ s -> x = y.
Proof.
  revert y. induction x as [|c x IH]; intros [|d y] H.
  - reflexivity.
  - apply (f_equal String.length) in H.
    rewrite (length_append (String d y)) in H. simpl in H. lia.
  - apply (f_equal String.length) in H.
    rewrite (length_append (String c x)) in H. simpl in H. lia.
  - injection H as -> H. f_equal. now apply IH.
Qed.

(** [os.path.join] with a relative second part puts the same text in
    front of it, whatever the part. *)
Lemma path_join_relative a b :
  Py.startswith "/" b = false ->
  exists p, Py.path_join a b = p ++ b
            /\ forall b', Py.startswith "/" b' = false ->
                          Py.path_join a b' = p ++ b'.
Proof.
  intros Hb. unfold Py.path_join.
  destruct (String.eqb a "") eqn:Ea.
  - exists "". split; [now rewrite Hb|]. intros b' ->. reflexivity.
  - destruct (Py.ends_with_slash a).
    + exists a. split; [now rewrite Hb|]. intros b' ->. reflexivity.
    + exists (a ++ "/"). rewrite Hb.
      assert (E : forall z, a ++ "/" ++ z = (a ++ "/") ++ z).
      { intros z. clear. induction a as [|c a IH]; [reflexivity|].
        simpl. f_equal. exact IH. }
      split; [apply E|]. intros b' ->. apply E.
Qed.

Lemma path_join_inj a b1 b2 :
  Py.startswith "/" b1 = false -> Py.startswith "/" b2 = false ->
  Py.path_join a b1 = Py.path_join a b2 -> b1 = b2.
Proof.
  intros H1 H2 H.
  destruct (path_join_relative a b1 H1) as (p & E1 & Hp).
  rewrite E1, (Hp b2 H2) in H. now apply append_inj_l in H.
Qed.

Lemma category_file_inj self c1 c2 :
  category_file self c1 = category_file self c2 -> c1 = c2.
Proof.
  unfold category_file. intros H.
  apply path_join_inj in H; [|reflexivity|reflexivity].
  apply (append_inj_l "sitemap-") in H. now apply append_inj_r in H.
Qed.

Lemma NoDup_map_inj {A B : Type} (f : A -> B) (l : list A) :
  (forall x y, f x = f y -> x = y) -> NoDup l -> NoDup (map f l).
Proof.
  intros Hf. induction 1 as [|x l Hnin Hnd IH]; simpl; constructor; auto.
  intros Hin. apply in_map_iff in Hin. destruct Hin as (y & Hy & Hin).
  apply Hf in Hy. subst. contradiction.
Qed.

Lemma NoDup_firstn {A : Type} (k : nat) (l : list A) :
  NoDup l -> NoDup (firstn k l).
Proof.
  revert l. induction k as [|k IH]; intros [|x l] H; try constructor.
  - inversion H as [|? ? Hnin Hnd]; subst. intros Hin. apply Hnin.
    now apply (firstn_incl k).
  - inversion H; subst. now apply IH.
Qed.

(** X9. Different categories are written to different files: the
    category of a sitemap can be read off the path of its file, the
    paths of the category sitemaps of a run that does not raise are
    pairwise different, and so are the paths the loop over the
    categories has written when [open] stops it. *)
Theorem category_files_distinct (env : file_system) (self : t)
  (src : tools_source) :
  (forall c1 c2, category_file self c1 = category_file self c2 -> c1 = c2)
  /\ (exception (generate_sitemaps env self src) = None ->
      NoDup (map fst
               (removelast
                  (removelast
                     (files_written (generate_sitemaps env self src))))))
  /\ (forall tools,
         NoDup (map fst
                  (files_written
                     (write_categories env self
                        (group_tools_by_category tools) [])))).
Proof.
  assert (Hnd : forall k tools,
             NoDup (map fst
                      (map (fun e => (category_file self (fst e),
                                      sitemap_document self (snd e)))
                           (firstn k (group_tools_by_category tools))))).
  { intros k tools. rewrite map_map. cbn [fst].
    rewrite <- (map_map fst (category_file self)).
    apply NoDup_map_inj; [apply category_file_inj|].
    rewrite <- firstn_map. apply NoDup_firstn, group_NoDup. }
  split; [apply category_file_inj|]. split.
  - intros He.
    destruct (parse_tools_from_ts self src) as [tools|e] eqn:Hparse.
    + destruct (generate_sitemaps_written env self src tools Hparse)
        as (k & tail & Hw & _ & Hfull).
      destruct tools as [|t0 ts].
      * unfold generate_sitemaps. rewrite Hparse. constructor.
      * destruct (Hfull He) as [_ ->]; [discriminate|].
        rewrite Hw, removelast_two. apply Hnd.
    + unfold generate_sitemaps in He. rewrite Hparse in He. discriminate.
  - intros tools.
    destruct (write_categories_written env self
                (group_tools_by_category tools) []) as (k & -> & _).
    { intros c l H. now apply group_entry in H. }
    cbn [app]. apply Hnd.
Qed.

(** *** The main sitemap *)

Lemma last_written_app name fs1 fs2 :
  Further.last_written name (fs1 ++ fs2)%list
  = match Further.last_written name fs2 with
    | Some d => Some d
    | None => Further.last_written name fs1
    end.
Proof.
  induction fs1 as [|[n doc] fs1 IH]; simpl.
  - destruct (Further.last_written name fs2); reflexivity.
  - rewrite IH. destruct (Further.last_written name fs2); reflexivity.
Qed.

(** X10. In a run that does not raise, the sitemap of a catalogue
    category named [main] does not survive: it is written to the file of
    the main sitemap, which is written again afterwards with the static
    pages. Once the run is over that file holds the static pages, and no
    entry in it is the entry of a tool. *)
Theorem main_sitemap_overwrites_main_category (env : file_system) (self : t)
  (src : tools_source) (tools : list tool) :
  parse_tools_from_ts self src = Ok tools ->
  tools <> [] ->
  exception (generate_sitemaps env self src) = None ->
  category_file self "main"
  = Py.path_join (output_dir self) "sitemap-main.xml"
  /\ Further.last_written (category_file self "main")
       (files_written (generate_sitemaps env self src))
     = Some (main_document self)
  /\ forall tool,
       ~ In (tool_element self tool) (children (main_document self)).
Proof.
  intros Hparse Hne He. split; [reflexivity|]. split.
  - destruct (generate_sitemaps_written env self src tools Hparse)
      as (k & tail & Hw & _ & Hfull).
    destruct (Hfull He Hne) as [_ ->].
    rewrite Hw, last_written_app. cbn [Further.last_written].
    destruct (String.eqb (category_file self "main")
                (Py.path_join (output_dir self) "sitemap.xml")) eqn:E.
    + apply String.eqb_eq in E. unfold category_file in E.
      apply path_join_inj in E; [discriminate|reflexivity|reflexivity].
    + unfold category_file at 1. cbn [append]. now rewrite String.eqb_refl.
  - intros tool Hin. cbn in Hin.
    repeat (destruct Hin as [Hin|Hin]; [discriminate|]). contradiction.
Qed.

Lemma main_sitemap_overwrites_main_category_witness :
  category_file Examples.generator "main"
  = Py.path_join (output_dir Examples.generator) "sitemap-main.xml"
  /\ Further.last_written (category_file Examples.generator "main")
       (files_written
          (generate_sitemaps Examples.obliging Examples.generator
             (ToolsData [Further.main_tool; Examples.bmi])))
     = Some (main_document Examples.generator)
  /\ forall tool,
       ~ In (tool_element Examples.generator tool)
            (children (main_document Examples.generator)).
Proof.
  apply (main_sitemap_overwrites_main_category Examples.obliging
           Examples.generator (ToolsData [Further.main_tool; Examples.bmi])
           (map (make_tool Examples.generator)
                [Further.main_tool; Examples.bmi])).
  - reflexivity.
  - discriminate.
  - reflexivity.
Defined.

(** *** The locations *)



(** *** The index *)

(** X13. The index of a run that does not raise, on a catalogue with a
    tool: the file [sitemap.xml] holds the entry of the main sitemap
    first and then one entry for every category of the catalogue, in
    alphabetical order and none twice, each with the location
    [<base_url>/sitemap-<category>.xml] and the date of the run; and the
    run has written the sitemap of every category listed, with an entry
    in it. *)
Theorem generator_index_entries (env : file_system) (self : t)
  (src : tools_source) (tools : list tool) :
  parse_tools_from_ts self src = Ok tools ->
  tools <> [] ->
  exception (generate_sitemaps env self src) = None ->
  exists cats,
    Sorted (Py.key_le (fun c => c)) cats
    /\ NoDup cats
    /\ (forall c,
           In c cats <-> exists tool, In tool tools /\ category tool = c)
    /\ Further.last_written (Py.path_join (output_dir self) "sitemap.xml")
         (files_written (generate_sitemaps env self src))
       = Some
           (Elem "sitemapindex" [("xmlns", sitemap_ns)] None
              (Elem "sitemap" [] None
                 [ Elem "loc" [] (Some (base_url self ++ "/sitemap-main.xml"))
                     [];
                   Elem "lastmod" [] (Some (current_date self)) [] ]
               :: map (fun c =>
                         Elem "sitemap" [] None
                           [ Elem "loc" []
                               (Some (base_url self ++ "/sitemap-" ++ c
                                      ++ ".xml")) [];
                             Elem "lastmod" [] (Some (current_date self)) [] ])
                      cats))
    /\ (forall c,
           In c cats ->
           exists doc,
             In (category_file self c, doc)
                (files_written (generate_sitemaps env self src))
             /\ children doc <> []).
Proof.
  intros Hparse Hne He.
  destruct (generate_sitemaps_written env self src tools Hparse)
    as (k & tail & Hw & _ & Hfull).
  destruct (Hfull He Hne) as [Hk ->]. rewrite Hk in Hw. clear Hfull Hk k.
  exists (Py.sorted (fun c => c)
            (Py.dict_keys (group_tools_by_category tools))).
  split; [apply sorted_Sorted|].
  split.
  { apply (Permutation_NoDup
             (Permutation_sym (sorted_perm (fun c => c) _))).
    apply group_NoDup. }
  split.
  { intros c. rewrite sorted_In. apply group_keys. }
  split.
  - rewrite Hw, last_written_app. cbn [Further.last_written].
    now rewrite String.eqb_refl.
  - intros c Hc. apply sorted_In in Hc.
    apply dict_get_keys in Hc.
    destruct (Py.dict_get c (group_tools_by_category tools)) as [l|] eqn:Eg;
      [|congruence].
    apply dict_get_In in Eg.
    exists (sitemap_document self l). split.
    + rewrite Hw. apply in_or_app. left.
      apply (in_map (fun e => (category_file self (fst e),
                               sitemap_document self (snd e)))) in Eg.
      exact Eg.
    + destruct (group_entry _ _ _ Eg) as [_ Hl].
      cbn [children sitemap_document]. destruct l; [congruence|discriminate].
Qed.

Lemma generator_index_entries_witness :
  exists cats,
    Sorted (Py.key_le (fun c => c)) cats
    /\ NoDup cats
    /\ (forall c,
           In c cats <->
           exists tool,
             In tool (map (make_tool Examples.generator)
                          [Examples.bmr; Examples.loan; Examples.bmi])
             /\ category tool = c)
    /\ Further.last_written "client/public/sitemap.xml"
         (files_written
            (generate_sitemaps Examples.obliging Examples.generator
               (ToolsData [Examples.bmr; Examples.loan; Examples.bmi])))
       = Some
           (Elem "sitemapindex" [("xmlns", sitemap_ns)] None
              (Elem "sitemap" [] None
                 [ Elem "loc" [] (Some "https://dapsiwow.com/sitemap-main.xml")
                     [];
                   Elem "lastmod" [] (Some "2024-01-01") [] ]
               :: map (fun c =>
                         Elem "sitemap" [] None
                           [ Elem "loc" []
                               (Some ("https://dapsiwow.com" ++ "/sitemap-"
                                      ++ c ++ ".xml")) [];
                             Elem "lastmod" [] (Some "2024-01-01") [] ])
                      cats))
    /\ (forall c,
           In c cats ->
           exists doc,
             In (category_file Examples.generator c, doc)
                (files_written
                   (generate_sitemaps Examples.obliging Examples.generator
                      (ToolsData [Examples.bmr; Examples.loan; Examples.bmi])))
             /\ children doc <> []).
Proof.
  apply (generator_index_entries Examples.obliging Examples.generator
           (ToolsData [Examples.bmr; Examples.loan; Examples.bmi])
           (map (make_tool Examples.generator)
                [Examples.bmr; Examples.loan; Examples.bmi])).
  - reflexivity.
  - discriminate.
  - reflexivity.
Defined.

End GeneratorFurther.

(** ** The two scripts together *)

Module CrossFurther.
Import RoundTripProofs.

Lemma tool_records_preserved (gen : ToolsSitemapGenerator.t)
  (tools : list ToolsSitemapGenerator.tool) :
  ET.text_preserved (ToolsSitemapGenerator.current_date gen) = true ->
  forallb (fun tool => ET.text_preserved (ToolsSitemapGenerator.url tool))
          tools = true ->
  forallb SitemapSplitter.record_preserved
    (map (fun tool =>
            SitemapSplitter.mk_url (ToolsSitemapGenerator.url tool)
              (ToolsSitemapGenerator.current_date gen) "weekly" "0.8")
         tools) = true.
Proof.
  intros Hd. induction tools as [|tool tools IH]; [reflexivity|].
  cbn [forallb map]. intros H. apply andb_true_iff in H. destruct H as [Hu Ht].
  rewrite (IH Ht), andb_true_r.
  unfold SitemapSplitter.record_preserved, SitemapSplitter.mk_url,
    SitemapSplitter.field_preserved.
  now rewrite Hu, Hd.
Qed.

(** X12. The splitter reads a category sitemap of the generator back as
    the locations of its tools, each with the date of the generator's
    run, [weekly] and [0.8], in the order of the sitemap, when the
    locations and the date are texts that are written and read
    unchanged. *)
Theorem splitter_reads_generator_sitemap (gen : ToolsSitemapGenerator.t)
  (self : SitemapSplitter.t) (tools : list ToolsSitemapGenerator.tool) :
  ET.text_preserved (ToolsSitemapGenerator.current_date gen) = true ->
  forallb (fun tool => ET.text_preserved (ToolsSitemapGenerator.url tool))
          tools = true ->
  SitemapSplitter.parse_existing_sitemap self
    (SitemapSplitter.written
       (ToolsSitemapGenerator.sitemap_document gen tools))
  = Ok (map (fun tool =>
               SitemapSplitter.mk_url (ToolsSitemapGenerator.url tool)
                 (ToolsSitemapGenerator.current_date gen) "weekly" "0.8")
            tools).
Proof.
  intros Hd Hu.
  pose proof (tool_records_preserved gen tools Hd Hu) as Hp.
  assert (E : ToolsSitemapGenerator.sitemap_document gen tools
              = SitemapSplitter.sitemap_document
                  (map (fun tool =>
                          SitemapSplitter.mk_url
                            (ToolsSitemapGenerator.url tool)
                            (ToolsSitemapGenerator.current_date gen)
                            "weekly" "0.8")
                       tools)).
  { unfold ToolsSitemapGenerator.sitemap_document,
      SitemapSplitter.sitemap_document.
    now rewrite map_map. }
  rewrite E. unfold SitemapSplitter.written, SitemapSplitter.sitemap_document.
  cbn [ET.read_back Py.dict_get String.eqb Ascii.eqb Bool.eqb ET.read_text].
  rewrite (read_back_urls sitemap_ns _ Hp).
  cbn [SitemapSplitter.parse_existing_sitemap].
  change (SitemapSplitter.namespace_of _) with sitemap_ns.
  unfold ET.findall_descendants. cbn [ET.iter tl].
  f_equal. apply read_parsed_urls.
Qed.

Lemma splitter_reads_generator_sitemap_witness :
  SitemapSplitter.parse_existing_sitemap Examples.splitter
    (SitemapSplitter.written
       (ToolsSitemapGenerator.sitemap_document Examples.generator
          [ ToolsSitemapGenerator.make_tool Examples.generator Examples.bmi;
            ToolsSitemapGenerator.make_tool Examples.generator Examples.bmr ]))
  = Ok [ SitemapSplitter.mk_url "https://dapsiwow.com/tools/bmi-calculator"
           "2024-01-01" "weekly" "0.8";
         SitemapSplitter.mk_url "https://dapsiwow.com/tools/bmr-calculator"
           "2024-01-01" "weekly" "0.8" ].
Proof.
  apply (splitter_reads_generator_sitemap Examples.generator Examples.splitter
           [ ToolsSitemapGenerator.make_tool Examples.generator Examples.bmi;
             ToolsSitemapGenerator.make_tool Examples.generator Examples.bmr ]);
    reflexivity.
Defined.

End CrossFurther.
